(** * gpt-neo, [tasks.py]: bin packing and windowed targets of the
      evaluation tasks

    A shallow embedding of [bin_pack], [lambada_init],
    [lambada_get_task_info] and [lambada_input] (with its inner
    [_get_output]); [wikitext_init] and [wikitext_input] repeat the same
    code on another token file.

    Python integers are [Z]; Python lists are [list]; exceptions are an
    explicit outcome; the [params] dictionary is a record of the keys the
    functions read and write. *)

From Stdlib Require Import String Ascii DecimalString DecimalZ.
From Stdlib Require Import ZArith List Lia Bool Arith.
Import ListNotations.

Open Scope Z_scope.

(** ** Outcomes of a Python call *)

Inductive exn : Type :=
| ZeroDivisionError   (* integer modulo or division by zero *)
| ValueError          (* numpy: negative dimension, shape mismatch;
                         tensorflow: negative dimension of a shape *)
| OverflowError       (* numpy: an integer outside the C long *)
| IndexError          (* numpy: row index out of the matrix *)
| InvalidArgumentError (* tensorflow: batch size not positive *)
| KeyError.           (* missing dictionary key *)

(** [OutOfFuel] is the outcome of a [while] loop cut by its fuel; it is
    shown below never to come out of [bin_pack]. *)
Inductive result (A : Type) : Type :=
| Ok (a : A)
| Raise (e : exn)
| OutOfFuel.

Arguments Ok {A} a.
Arguments Raise {A} e.
Arguments OutOfFuel {A}.

Definition bind {A B : Type} (r : result A) (k : A -> result B) : result B :=
  match r with
  | Ok a => k a
  | Raise e => Raise e
  | OutOfFuel => OutOfFuel
  end.

Notation "x <- r ;; k" := (bind r (fun x => k))
  (at level 61, r at next level, right associativity).

(** ** Python integers *)

(** [len(l)] *)
Definition len {A : Type} (l : list A) : Z := Z.of_nat (length l).

(** [a % b]: the result takes the sign of the divisor, as [Z.modulo]. *)
Definition py_mod (a b : Z) : result Z :=
  if b =? 0 then Raise ZeroDivisionError else Ok (a mod b).

(** [a // b]: floor division, as [Z.div]. *)
Definition py_floordiv (a b : Z) : result Z :=
  if b =? 0 then Raise ZeroDivisionError else Ok (a / b).

(** ** The [params] dictionary *)

Record params : Type := mk_params {
  eos_id : Z;                    (* params['eos_id'] *)
  n_ctx : Z;                     (* params['n_ctx'] *)
  eval_batch_size : Z;           (* params['eval_batch_size'] *)
  n_vocab : Z;                   (* params['n_vocab'] *)
  lambada_n_steps : option Z     (* params['lambada_n_steps'], set by lambada_init *)
}.

Definition set_eos_id (e : Z) (p : params) : params :=
  mk_params e (n_ctx p) (eval_batch_size p) (n_vocab p) (lambada_n_steps p).

Definition set_lambada_n_steps (s : Z) (p : params) : params :=
  mk_params (eos_id p) (n_ctx p) (eval_batch_size p) (n_vocab p) (Some s).

(** ** numpy: a [uint16] matrix *)

(** A value stored in a [np.uint16] cell keeps its low 16 bits. *)
Definition to_uint16 (v : Z) : Z := v mod 65536.

(** [np.full((rows, cols), v, dtype=np.uint16)] *)
Definition np_full (rows : nat) (cols : Z) (v : Z) : result (list (list Z)) :=
  if cols <? 0 then Raise ValueError
  else Ok (repeat (repeat (to_uint16 v) (Z.to_nat cols)) rows).

(** An integer that fits a C long, of 64 bits: numpy reads the integers
    of a list through one before it keeps their low 16 bits. *)
Definition c_long (v : Z) : bool :=
  (-9223372036854775808 <=? v) && (v <=? 9223372036854775807).

(** [row[0:len(b)] = b] on one row of the matrix.  The integers of [b] are
    first made 16-bit cells, which raises [OverflowError] when one of them
    does not fit a C long.  The slice is clipped to the row, so it has
    [min (len b) (len row)] cells; cells as many as that are copied, one
    cell is broadcast over the slice, any other number does not fit and
    numpy raises [ValueError]. *)
Definition assign_slice (row b : list Z) : result (list Z) :=
  if negb (forallb c_long b) then Raise OverflowError
  else
    let w := Nat.min (length b) (length row) in
    if Nat.eqb (length b) w then Ok (map to_uint16 b ++ skipn w row)
    else if Nat.eqb (length b) 1
         then Ok (repeat (to_uint16 (hd 0 b)) w ++ skipn w row)
         else Raise ValueError.

(** [arr[i] = row] *)
Fixpoint set_row (i : nat) (row : list Z) (arr : list (list Z)) : list (list Z) :=
  match arr, i with
  | [], _ => []
  | _ :: t, O => row :: t
  | r :: t, S j => r :: set_row j row t
  end.

(** ** [bin_pack] *)

Definition bin : Type := list Z.

Section BinPack.

Variable eos_token : Z.       (* params['eos_id'] *)
Variable ctx : Z.             (* params['n_ctx'] *)

(** One turn of [for a in tokens_data]. *)
Definition pack_step (bins : list bin) (a : list Z) : list bin :=
  let bins1 :=
    if Nat.eqb (length bins) 0 || (len (last bins []) + len a + 1 >? ctx)
    then bins ++ [[]]                              (* bins.append([]) *)
    else bins in
  (* bins[-1] += a ; bins[-1].append(eos_token) *)
  removelast bins1 ++ [last bins1 [] ++ a ++ [eos_token]].

Definition pack_loop (tokens_data : list (list Z)) : list bin :=
  fold_left pack_step tokens_data [].

End BinPack.

(** [while len(bins) % pad_batch_size != 0: bins.append([])] *)
Fixpoint pad_while (fuel : nat) (pad_batch_size : Z) (bins : list bin)
  : result (list bin) :=
  r <- py_mod (len bins) pad_batch_size ;;
  if r =? 0 then Ok bins
  else match fuel with
       | O => OutOfFuel
       | S fuel' => pad_while fuel' pad_batch_size (bins ++ [[]])
       end.

(** [for i, b in enumerate(bins): bins_array[i, 0:len(b)] = b], from
    index [i] on. *)
Fixpoint fill_from (i : nat) (bins : list bin) (bins_array : list (list Z))
  : result (list (list Z)) :=
  match bins with
  | [] => Ok bins_array
  | b :: rest =>
      match nth_error bins_array i with
      | None => Raise IndexError
      | Some row =>
          row' <- assign_slice row b ;;
          fill_from (S i) rest (set_row i row' bins_array)
      end
  end.

Definition dummy_token : Z := 1.

Definition bin_pack (p : params) (tokens_data : list (list Z))
  : result (list (list Z)) :=
  let eos_token := eos_id p in
  let n_ctx := n_ctx p in
  let pad_batch_size := eval_batch_size p in
  let bins := pack_loop eos_token n_ctx tokens_data in
  bins <- pad_while (Z.abs_nat pad_batch_size) pad_batch_size bins ;;
  bins_array <- np_full (length bins) n_ctx dummy_token ;;
  fill_from 0 bins bins_array.

(** ** [lambada_init], [lambada_get_task_info] *)

Definition lambada_init (p : params) (tokens_data : list (list Z)) : result params :=
  bins_array <- bin_pack p tokens_data ;;
  n <- py_floordiv (len bins_array) (eval_batch_size p) ;;
  Ok (set_lambada_n_steps n p).

Definition lambada_get_task_info (p : params) : result Z :=
  match lambada_n_steps p with
  | Some n => Ok n
  | None => Raise KeyError
  end.

(** ** tensorflow: the operations of [_get_output] *)

(** [tf.range(n)] *)
Definition tf_range (n : Z) : list Z := map Z.of_nat (seq 0 (Z.to_nat n)).

(** [tf.gather(t, indices)]; an index out of range reads 0 (the
    accelerator kernel; the indices below are always in range). *)
Definition znth (t : list Z) (i : Z) : Z :=
  if i <? 0 then 0 else nth (Z.to_nat i) t 0.

Definition tf_gather (t : list Z) (indices : list Z) : list Z :=
  map (znth t) indices.

(** [tf.where(c, x, y)], element by element *)
Fixpoint tf_where (c : list bool) (x y : list Z) : list Z :=
  match c, x, y with
  | cb :: c', xv :: x', yv :: y' => (if cb then xv else yv) :: tf_where c' x' y'
  | _, _, _ => []
  end.

(** [tf.constant(v, shape=[n])] *)
Definition tf_constant (v : Z) (n : Z) : list Z := repeat v (Z.to_nat n).

(** [tf.math.equal(t, v)] *)
Definition tf_equal (t : list Z) (v : Z) : list bool := map (fun x => x =? v) t.

(** The eos marker of [lambada_input] and [wikitext_input]. *)
Definition input_eos_token (p : params) : Z :=
  if n_vocab p >=? 50257 then 50256 else 0.

(** [_get_output(bin)]: the casts and reshapes keep the values of a
    [uint16] row of [n_ctx] cells. *)
Definition _get_output (eos_token n_ctx : Z) (bin : list Z) : list Z * list Z :=
  let indexes := tf_range n_ctx in
  let results := tf_gather bin (map (fun i => (i + 1) mod n_ctx) indexes) in
  let eos_next_positions :=
    tf_equal (tf_gather bin (map (fun i => (i + 2) mod n_ctx) indexes)) eos_token in
  let output := tf_where eos_next_positions results (tf_constant eos_token n_ctx) in
  (bin, output).

(** ** tensorflow: datasets *)

(** [dataset.batch(batch_size, drop_remainder=True)]: elements are
    gathered in a buffer that is emitted when it holds [batch_size] of
    them; what is left in the buffer at the end is dropped.  With
    [drop_remainder=True] the batch size is a dimension of the shape of
    the batches, and a negative one raises [ValueError] while the dataset
    is built; a batch size of 0 is refused by the batching itself. *)
Fixpoint batch_go {A : Type} (batch_size : nat) (buf : list A) (l : list A)
  : list (list A) :=
  match l with
  | [] => []
  | x :: t =>
      let buf' := buf ++ [x] in
      if Nat.eqb (length buf') batch_size
      then buf' :: batch_go batch_size [] t
      else batch_go batch_size buf' t
  end.

Definition ds_batch {A : Type} (batch_size : Z) (l : list A) : result (list (list A)) :=
  if batch_size <? 0 then Raise ValueError
  else if batch_size =? 0 then Raise InvalidArgumentError
  else Ok (batch_go (Z.to_nat batch_size) [] l).

(** [dataset.repeat()]: an iterator over the dataset that starts over
    when it reaches the end.  The state is the position of the next
    element. *)
Definition repeat_next {A : Type} (l : list A) (pos : nat) : option (A * nat) :=
  match nth_error l pos with
  | Some x => Some (x, S pos)
  | None =>
      match l with
      | [] => None                 (* nothing to repeat *)
      | x :: _ => Some (x, 1%nat)  (* start over *)
      end
  end.

(** The first [n] elements the iterator yields from position [pos]. *)
Fixpoint repeat_take {A : Type} (n : nat) (l : list A) (pos : nat) : list A :=
  match n with
  | O => []
  | S n' =>
      match repeat_next l pos with
      | None => []
      | Some (x, pos') => x :: repeat_take n' l pos'
      end
  end.

(** ** [lambada_input] *)

(** The dataset before [repeat()]: one pass of batches. *)
Definition lambada_input_pass (p : params) (tokens_data : list (list Z))
  : result (list (list (list Z * list Z))) :=
  let eos_token := input_eos_token p in
  let n_ctx := n_ctx p in
  bins_array <- bin_pack p tokens_data ;;
  let dataset := map (_get_output eos_token n_ctx) bins_array in
  ds_batch (eval_batch_size p) dataset.

(** The first [n] batches of the dataset [lambada_input] returns. *)
Definition lambada_input (p : params) (tokens_data : list (list Z)) (n : nat)
  : result (list (list (list Z * list Z))) :=
  pass <- lambada_input_pass p tokens_data ;;
  Ok (repeat_take n pass 0).

(** ** [wikitext_create_tokens_data]: cutting the encoded text *)

(** [range(start, stop, step)]: upwards for a step above 0, downwards for
    a step below 0; [fuel] bounds the number of elements. *)
Fixpoint range_up (fuel : nat) (i stop step : Z) : list Z :=
  match fuel with
  | O => []
  | S fuel' =>
      if i <? stop then i :: range_up fuel' (i + step) stop step else []
  end.

Fixpoint range_down (fuel : nat) (i stop step : Z) : list Z :=
  match fuel with
  | O => []
  | S fuel' =>
      if i >? stop then i :: range_down fuel' (i + step) stop step else []
  end.

Definition py_range (start stop step : Z) : result (list Z) :=
  if step =? 0 then Raise ValueError
  else if 0 <? step
       then Ok (range_up (Z.to_nat (stop - start)) start stop step)
       else Ok (range_down (Z.to_nat (start - stop)) start stop step).

(** A bound of a slice of a list of [n] elements: counted from the end
    when negative, and clipped to the list. *)
Definition py_index (n k : Z) : Z :=
  if k <? 0 then Z.max 0 (n + k) else Z.min k n.

(** [l[i:j]] *)
Definition py_slice {A : Type} (l : list A) (i j : Z) : list A :=
  let lo := py_index (len l) i in
  let hi := py_index (len l) j in
  firstn (Z.to_nat (hi - lo)) (skipn (Z.to_nat lo) l).

(** The loop of [wikitext_create_tokens_data] over the encoded text:
    [for i in range(0, len(encoded_text), n_ctx - 1):
       arrays.append(encoded_text[i:i + n_ctx - 1])]. *)
Definition wikitext_arrays (p : params) (encoded_text : list Z)
  : result (list (list Z)) :=
  indexes <- py_range 0 (len encoded_text) (n_ctx p - 1) ;;
  Ok (map (fun i => py_slice encoded_text i (i + n_ctx p - 1)) indexes).

(** ** Token files *)

(** What [json.load] finds in a file: the arrays that [json.dump] wrote
    there, or nothing it can read, as in a file that [open(path, 'w')] has
    just created or emptied.  The files at the paths of the tasks are
    taken to be written by this code only: a JSON document of another
    shape is not among them. *)
Inductive file : Type :=
| NotJson
| Dumped (arrays : list (list Z)).

(** The files, by path (the first entry of a path is the file), and the
    number of requests sent. *)
Record world : Type := mk_world {
  files : list (String.string * file);
  requests : nat
}.

Fixpoint lookup (path : String.string) (fs : list (String.string * file))
  : option file :=
  match fs with
  | [] => None
  | (q, f) :: rest => if String.eqb path q then Some f else lookup path rest
  end.

Definition write_file (path : String.string) (f : file) (w : world) : world :=
  mk_world ((path, f) :: files w) (requests w).

Inductive io_exn : Type :=
| HTTPError            (* requests: the download failed *)
| JSONDecodeError      (* json.load: the file holds no JSON document *)
| AssertionError
| Py (e : exn)         (* an exception of the packing *)
| NoFuel.

(** A call returns a value or raises, and leaves a world. *)
Inductive io_result (A : Type) : Type :=
| Returned (a : A) (w : world)
| Failed (e : io_exn) (w : world).

Arguments Returned {A} a w.
Arguments Failed {A} e w.

(** [s.endswith(suffix)] *)
Definition endswith (s suffix : String.string) : bool :=
  let n := String.length s in
  let k := String.length suffix in
  Nat.leb k n && String.eqb (String.substring (n - k) k s) suffix.

(** The parameters of a task: those of the packing, the tokenizer path of
    [params['dataset_configs'][0]], and [params['lambada_tokens_path']],
    which [lambada_init] sets. *)
Record task_params : Type := mk_task_params {
  base : params;
  tokenizer_path : String.string;
  lambada_tokens_path : option String.string
}.

Section TokenFiles.

(** The texts of the lines of the response to request number [k], or
    [None] when the request or its status check raises.  The lines of a
    response are taken to be JSON objects with a [text], as the corpus has
    them, the encoder to return, and the file to open for writing: a call
    is followed here up to the failure of its request only. *)
Variable response : nat -> option (list String.string).
(** [ftfy.fix_text(_, normalization='NFKC')] *)
Variable fix_text : String.string -> String.string.
(** [encode(fetch_encoder(params), _)] *)
Variable encode : String.string -> list Z.
(** [hashlib.md5(_.encode()).hexdigest()] *)
Variable md5_hexdigest : String.string -> String.string.

Definition lambada_create_tokens_data (path : String.string) (w : world)
  : io_result (list (list Z)) :=
  let w := write_file path NotJson w in                (* open(path, 'w') *)
  let k := requests w in
  let w := mk_world (files w) (S k) in                 (* requests.get *)
  match response k with
  | None => Failed HTTPError w
  | Some lines =>
      let texts := map fix_text lines in
      let arrays := map encode texts in
      Returned arrays (write_file path (Dumped arrays) w)   (* json.dump *)
  end.

Definition lambada_read_or_create_tokens_data (path : String.string) (w : world)
  : io_result (list (list Z)) :=
  match lookup path (files w) with
  | None => lambada_create_tokens_data path w    (* not os.path.exists(path) *)
  | Some NotJson => Failed JSONDecodeError w     (* json.load(f) *)
  | Some (Dumped arrays) => Returned arrays w
  end.

Definition lift {A : Type} (r : result A) (w : world) : io_result A :=
  match r with
  | Ok a => Returned a w
  | Raise e => Failed (Py e) w
  | OutOfFuel => Failed NoFuel w
  end.

(** [lambada_init], with the token file. *)
Definition lambada_init_files (tp : task_params) (w : world)
  : io_result task_params :=
  let tokenizer_hash := md5_hexdigest (tokenizer_path tp) in
  let lt_path :=
    String.append "lambada_"%string
                  (String.append tokenizer_hash ".json"%string) in
  if negb (endswith lt_path ".json"%string) then Failed AssertionError w
  else
    match lambada_read_or_create_tokens_data lt_path w with
    | Failed e w' => Failed e w'
    | Returned tokens_data w' =>
        match lift (lambada_init (base tp) tokens_data) w' with
        | Failed e w'' => Failed e w''
        | Returned b w'' =>
            Returned (mk_task_params b (tokenizer_path tp) (Some lt_path)) w''
        end
    end.

(** [lambada_input], with the token file: one pass of batches. *)
Definition lambada_input_files (tp : task_params) (w : world)
  : io_result (list (list (list Z * list Z))) :=
  match lambada_tokens_path tp with
  | None => Failed (Py KeyError) w
  | Some lt_path =>
      match lambada_read_or_create_tokens_data lt_path w with
      | Failed e w' => Failed e w'
      | Returned tokens_data w' =>
          lift (lambada_input_pass (base tp) tokens_data) w'
      end
  end.

End TokenFiles.

(** ** [coqa_create_tokens_data]: the prompts of an item *)

Module Coqa.

(** [str(n)] of an integer: its decimal digits, after a minus sign when
    it is negative. *)
Definition py_str (n : Z) : string := NilEmpty.string_of_int (Z.to_int n).

(** A [dict] with string keys: the entries in the order in which their
    keys were first set. *)
Definition dict (V : Type) : Type := list (string * V).

(** [d[k] = v]: the value of a key that is there is replaced in place, a
    new key goes to the end. *)
Fixpoint dict_set {V : Type} (k : string) (v : V) (d : dict V) : dict V :=
  match d with
  | [] => [(k, v)]
  | (k', v') :: rest =>
      if String.eqb k k' then (k', v) :: rest
      else (k', v') :: dict_set k v rest
  end.

(** [d.get(k)] *)
Fixpoint dict_get {V : Type} (k : string) (d : dict V) : option V :=
  match d with
  | [] => None
  | (k', v) :: rest => if String.eqb k k' then Some v else dict_get k rest
  end.

(** [dict(pairs)] *)
Definition dict_of {V : Type} (pairs : list (string * V)) : dict V :=
  fold_left (fun d kv => dict_set (fst kv) (snd kv) d) pairs [].

(** [list(d.keys())] and [list(d.values())] *)
Definition keys {V : Type} (d : dict V) : list string := map fst d.
Definition values {V : Type} (d : dict V) : list V := map snd d.

(** A question and an item of the data, with the keys the code reads. *)
Record question : Type := mk_question {
  input_text : string;       (* q['input_text'] *)
  turn_id : Z                (* q['turn_id'] *)
}.

Record item : Type := mk_item {
  id : string;               (* item['id'] *)
  story : string;            (* item['story'] *)
  questions : list question  (* item['questions'] *)
}.

(** The line feed of the prompts *)
Definition nl : string := String (ascii_of_nat 10) EmptyString.

(** The prompt of a question text and the key of a turn. *)
Definition prompt_of (story q : string) : string :=
  (story ++ (nl ++ "Q: ") ++ q ++ (nl ++ "A: "))%string.

Definition prompt_id_of (item_id : string) (turn : Z) : string :=
  (item_id ++ "_" ++ py_str turn)%string.

Section Prompts.

(** [encode(enc, _)] *)
Variable encode : string -> list Z.

(** The body of [for item in _data], up to the value of
    [item['prompts']]. *)
Definition item_prompts (it : item) : dict (list Z) :=
  let item_id := id it in
  let story := story it in
  let questions := map input_text (questions it) in
  let turn_ids := map turn_id (Coqa.questions it) in
  let prompts := map (prompt_of story) questions in
  let prompt_ids := map (prompt_id_of item_id) turn_ids in
  let tokenized_prompts := map encode prompts in
  dict_of (combine prompt_ids tokenized_prompts).

(** The lists that [coqa_input] takes from the items, before
    [split_list]. *)
Definition coqa_prompts (data : list item) : list (list (list Z)) :=
  map (fun i => values (item_prompts i)) data.

Definition coqa_keys (data : list item) : list (list string) :=
  map (fun i => keys (item_prompts i)) data.

End Prompts.

End Coqa.

(** ** Vocabulary of the statements *)

(** A group of whole documents laid out in one bin: each document
    followed by the eos marker. *)
Definition seal (eos_token : Z) (group : list (list Z)) : bin :=
  concat (map (fun a => a ++ [eos_token]) group).

(** The number of empty bins the padding loop appends to [n] bins. *)
Definition pad_count (pad_batch_size : Z) (n : Z) : nat :=
  Z.to_nat ((- n) mod Z.abs pad_batch_size).

(** A bin that the slice assignment accepts in a row of [w] cells. *)
Definition fits (w : nat) (b : bin) : bool :=
  Nat.leb (length b) w || Nat.eqb (length b) 1.

(** A bin that the slice assignment stores in a row of [w] cells, and the
    error it raises for one that it does not store. *)
Definition stores (w : nat) (b : bin) : bool :=
  forallb c_long b && fits w b.

Definition slice_error (b : bin) : exn :=
  if forallb c_long b then ValueError else OverflowError.

(** The range of a C long. *)
Definition in_c_long (v : Z) : Prop :=
  -9223372036854775808 <= v <= 9223372036854775807.

(** The row of [w] cells that holds bin [b]. *)
Definition packed_row (w : nat) (b : bin) : list Z :=
  if Nat.leb (length b) w
  then map to_uint16 b ++ repeat dummy_token (w - length b)
  else repeat dummy_token w.

(** The bins at the end of the padding loop, for a batch size other
    than 0: those of the packing loop, then the empty ones. *)
Definition padded_bins (p : params) (tokens_data : list (list Z)) : list bin :=
  let bins := pack_loop (eos_id p) (n_ctx p) tokens_data in
  bins ++ repeat [] (pad_count (eval_batch_size p) (len bins)).

(** ** Runs on small inputs *)

Definition gpt2 (eos n batch : Z) : params := mk_params eos n batch 50257 None.

Example bin_pack_two_docs :
  bin_pack (gpt2 0 4 1) [[5; 6]; [7]] = Ok [[5; 6; 0; 1]; [7; 0; 1; 1]].
Proof. reflexivity. Qed.

Example bin_pack_pads_rows :
  bin_pack (gpt2 0 4 4) [[5; 6]; [7]]
  = Ok [[5; 6; 0; 1]; [7; 0; 1; 1]; [1; 1; 1; 1]; [1; 1; 1; 1]].
Proof. reflexivity. Qed.

Example wikitext_arrays_seven :
  wikitext_arrays (gpt2 0 4 1) [11; 12; 13; 14; 15; 16; 17]
  = Ok [[11; 12; 13]; [14; 15; 16]; [17]].
Proof. reflexivity. Qed.

Example py_str_values :
  Coqa.py_str 0 = "0"%string /\ Coqa.py_str 12 = "12"%string
  /\ Coqa.py_str (-5) = "-5"%string.
Proof. repeat split. Qed.

Example bin_pack_beyond_c_long :
  bin_pack (gpt2 0 4 1) [[9223372036854775808]] = Raise OverflowError
  /\ bin_pack (gpt2 0 4 1) [[9223372036854775808]; [5; 6; 7; 8]]
     = Raise OverflowError
  /\ bin_pack (gpt2 0 4 1) [[5; 6; 7; 8]; [9223372036854775808]]
     = Raise ValueError.
Proof. repeat split. Qed.

Example get_output_row :
  _get_output 0 4 [5; 6; 0; 1] = ([5; 6; 0; 1], [6; 0; 0; 0]).
Proof. reflexivity. Qed.

(** * The window target deriver *)

Section Target.

Variable eos_token : Z.
Variable n : Z.

Lemma tf_range_length : length (tf_range n) = Z.to_nat n.
Proof. unfold tf_range. now rewrite length_map, length_seq. Qed.

Lemma nth_map_range {B : Type} (f : Z -> B) (i : nat) (d : B) :
  (i < Z.to_nat n)%nat ->
  nth i (map f (tf_range n)) d = f (Z.of_nat i).
Proof.
  intros Hi. unfold tf_range.
  rewrite map_map.
  rewrite (nth_indep _ d (f (Z.of_nat 0))) by now rewrite length_map, length_seq.
  rewrite (map_nth (fun x => f (Z.of_nat x))).
  now rewrite seq_nth.
Qed.

Lemma tf_where_length (c : list bool) :
  forall x y, length x = length c -> length y = length c ->
  length (tf_where c x y) = length c.
Proof.
  induction c as [|cb c IH]; intros [|xv x] [|yv y]; simpl; try discriminate;
    try reflexivity.
  intros Hx Hy. f_equal. apply IH; congruence.
Qed.

Lemma tf_where_nth (c : list bool) :
  forall x y i, length x = length c -> length y = length c ->
  (i < length c)%nat ->
  nth i (tf_where c x y) 0 = if nth i c false then nth i x 0 else nth i y 0.
Proof.
  induction c as [|cb c IH]; intros [|xv x] [|yv y] i; simpl; try discriminate;
    try lia.
  intros Hx Hy Hi. destruct i as [|i]; [reflexivity|].
  apply IH; try congruence; lia.
Qed.

Lemma get_output_length (bin : list Z) :
  length (snd (_get_output eos_token n bin)) = Z.to_nat n.
Proof.
  unfold _get_output, tf_equal, tf_gather, tf_constant; simpl.
  rewrite tf_where_length; rewrite ?length_map, ?repeat_length, ?tf_range_length;
    reflexivity.
Qed.

(** The rule of one position of the target. *)
Lemma get_output_nth (bin : list Z) (i : Z) :
  0 <= i < n ->
  znth (snd (_get_output eos_token n bin)) i
  = if znth bin ((i + 2) mod n) =? eos_token
    then znth bin ((i + 1) mod n) else eos_token.
Proof.
  intros Hi.
  assert (Hlt : (Z.to_nat i < Z.to_nat n)%nat) by lia.
  unfold znth at 1. destruct (Z.ltb_spec i 0) as [|_]; [lia|].
  unfold _get_output, tf_equal, tf_gather, tf_constant; simpl.
  rewrite tf_where_nth;
    rewrite ?length_map, ?repeat_length, ?tf_range_length; try reflexivity; try lia.
  rewrite !map_map.
  rewrite (nth_map_range (fun x => znth bin ((x + 2) mod n) =? eos_token))
    by exact Hlt.
  rewrite Z2Nat.id by lia.
  destruct (znth bin ((i + 2) mod n) =? eos_token).
  - rewrite (nth_map_range (fun x => znth bin ((x + 1) mod n))) by exact Hlt.
    now rewrite Z2Nat.id by lia.
  - apply nth_repeat_lt. exact Hlt.
Qed.

(** On a ring of [n] cells, two cells ahead of [i] is [k] exactly when
    [i] is two cells behind [k]. *)
Lemma two_ahead_iff (i k : Z) :
  0 <= i < n -> 0 <= k < n ->
  (i + 2) mod n = k <-> i = (k - 2) mod n.
Proof.
  intros Hi Hk. split; intros H.
  - rewrite <- H, Zminus_mod_idemp_l.
    replace (i + 2 - 2) with i by lia.
    now rewrite Z.mod_small.
  - rewrite H, Zplus_mod_idemp_l.
    replace (k - 2 + 2) with k by lia.
    now apply Z.mod_small.
Qed.

Lemma one_ahead_of_two_behind (k : Z) :
  0 < n -> ((k - 2) mod n + 1) mod n = (k - 1) mod n.
Proof.
  intros Hn. rewrite Zplus_mod_idemp_l. f_equal. lia.
Qed.

End Target.

(** C1. For a row [bin] of [n_ctx] cells and every position [i] of it, the
    target has [n_ctx] cells and [target[i]] is [bin[(i+1) mod n_ctx]] when
    [bin[(i+2) mod n_ctx]] is the eos marker, and the eos marker otherwise,
    the last two positions wrapping to the start of the row.  When the row
    holds a dummy token everywhere except one eos marker at position [k],
    the target is the eos marker everywhere except at [(k-2) mod n_ctx],
    where it is [bin[(k-1) mod n_ctx]]. *)
Theorem get_output_circular (eos_token n_ctx : Z) (bin : list Z) (i : Z) :
  len bin = n_ctx ->
  0 <= i < n_ctx ->
  let target := snd (_get_output eos_token n_ctx bin) in
  fst (_get_output eos_token n_ctx bin) = bin
  /\ len target = n_ctx
  /\ znth target i
     = (if znth bin ((i + 2) mod n_ctx) =? eos_token
        then znth bin ((i + 1) mod n_ctx) else eos_token)
  /\ (forall k dummy : Z,
        0 <= k < n_ctx ->
        dummy <> eos_token ->
        (forall j, 0 <= j < n_ctx ->
                   znth bin j = if j =? k then eos_token else dummy) ->
        znth target i
        = if i =? (k - 2) mod n_ctx then znth bin ((k - 1) mod n_ctx)
          else eos_token).
Proof.
  intros Hlen Hi target.
  split; [reflexivity|].
  split.
  { unfold target, len. rewrite get_output_length. lia. }
  split; [now apply get_output_nth|].
  intros k dummy Hk Hd Hrow.
  unfold target. rewrite get_output_nth by exact Hi.
  assert (Hn : 0 < n_ctx) by lia.
  rewrite (Hrow ((i + 2) mod n_ctx)) by (apply Z.mod_pos_bound; lia).
  destruct (Z.eqb_spec ((i + 2) mod n_ctx) k) as [E|E].
  - rewrite Z.eqb_refl.
    apply two_ahead_iff in E; try assumption.
    rewrite <- E at 1. rewrite Z.eqb_refl.
    rewrite E at 1. now rewrite one_ahead_of_two_behind.
  - destruct (Z.eqb_spec dummy eos_token) as [|_]; [contradiction|].
    destruct (Z.eqb_spec i ((k - 2) mod n_ctx)) as [E'|_]; [|reflexivity].
    apply two_ahead_iff in E'; try assumption. contradiction.
Qed.

(** Rows of five cells with eos 0.  At [i = 0] the marker two cells
    ahead is at position 2; at [i = 4], the last position, it is at
    position 1, around the end of the row. *)
Lemma get_output_circular_witness :
  znth (snd (_get_output 0 5 [1; 1; 0; 1; 1])) 0 = 1
  /\ znth (snd (_get_output 0 5 [1; 0; 1; 1; 1])) 4 = 1.
Proof.
  split.
  - destruct (get_output_circular 0 5 [1; 1; 0; 1; 1] 0) as (_ & _ & H & _);
      [reflexivity | lia | exact H].
  - destruct (get_output_circular 0 5 [1; 0; 1; 1; 1] 4) as (_ & _ & H & _);
      [reflexivity | lia | exact H].
Defined.

(** * The bin packer *)

Section PackLoop.

Variable eos_token : Z.
Variable ctx : Z.

Local Abbreviation step := (pack_step eos_token ctx).
Local Abbreviation loop := (pack_loop eos_token ctx).

Lemma removelast_snoc {A : Type} (l : list A) (x : A) : removelast (l ++ [x]) = l.
Proof. apply removelast_last. Qed.

(** A document opens a new bin ... *)
Lemma pack_step_new (bins : list bin) (a : list Z) :
  bins = [] \/ len (last bins []) + len a + 1 > ctx ->
  step bins a = bins ++ [a ++ [eos_token]].
Proof.
  intros H. unfold pack_step.
  assert (E : Nat.eqb (length bins) 0 || (len (last bins []) + len a + 1 >? ctx) = true).
  { destruct H as [->|H]; [reflexivity|].
    apply orb_true_iff. right. apply Z.gtb_lt. lia. }
  rewrite E. now rewrite removelast_snoc, last_last.
Qed.

(** ... or goes to the end of the last one. *)
Lemma pack_step_same (bins : list bin) (a : list Z) :
  bins <> [] -> len (last bins []) + len a + 1 <= ctx ->
  step bins a = removelast bins ++ [last bins [] ++ a ++ [eos_token]].
Proof.
  intros Hne H. unfold pack_step.
  assert (E : Nat.eqb (length bins) 0 || (len (last bins []) + len a + 1 >? ctx) = false).
  { apply orb_false_iff. split.
    - destruct bins; [contradiction|reflexivity].
    - destruct (Z.gtb_spec (len (last bins []) + len a + 1) ctx); [lia|reflexivity]. }
  now rewrite E.
Qed.

Lemma pack_step_cases (bins : list bin) (a : list Z) :
  (bins = [] \/ len (last bins []) + len a + 1 > ctx)
  \/ (bins <> [] /\ len (last bins []) + len a + 1 <= ctx).
Proof.
  destruct bins as [|b bins]; [left; now left|].
  destruct (Z_gt_le_dec (len (last (b :: bins) []) + len a + 1) ctx).
  - left; now right.
  - right; split; [discriminate|assumption].
Qed.

Lemma pack_loop_snoc (pre : list (list Z)) (a : list Z) :
  loop (pre ++ [a]) = step (loop pre) a.
Proof. unfold pack_loop. now rewrite fold_left_app. Qed.

Lemma seal_snoc (g : list (list Z)) (a : list Z) :
  seal eos_token (g ++ [a]) = seal eos_token g ++ a ++ [eos_token].
Proof.
  unfold seal. rewrite map_app, concat_app. simpl. now rewrite app_nil_r.
Qed.

(** The bins are the documents, cut into groups of whole documents. *)
Lemma pack_loop_groups (docs : list (list Z)) :
  exists groups : list (list (list Z)),
    concat groups = docs
    /\ Forall (fun g => g <> []) groups
    /\ loop docs = map (seal eos_token) groups.
Proof.
  induction docs as [|a pre IH] using rev_ind.
  - exists []. repeat split; constructor.
  - destruct IH as (groups & Hcat & Hne & Hbins).
    rewrite pack_loop_snoc.
    destruct (pack_step_cases (loop pre) a) as [Hnew|[Hsome Hfit]].
    + rewrite (pack_step_new _ _ Hnew).
      exists (groups ++ [[a]]). repeat split.
      * rewrite concat_app, Hcat. simpl. reflexivity.
      * apply Forall_app. split; [assumption|]. constructor; [discriminate|constructor].
      * rewrite map_app, Hbins. simpl. unfold seal. simpl. now rewrite app_nil_r.
    + rewrite (pack_step_same _ _ Hsome Hfit).
      destruct (exists_last (l := groups)) as (gs & g & ->).
      { intros ->. apply Hsome. exact Hbins. }
      exists (gs ++ [g ++ [a]]). repeat split.
      * rewrite <- Hcat, !concat_app. simpl. now rewrite !app_nil_r, app_assoc.
      * apply Forall_app in Hne as [Hgs _].
        apply Forall_app. split; [assumption|].
        constructor; [|constructor]. now destruct g.
      * rewrite Hbins, !map_app. simpl.
        rewrite removelast_snoc, last_last, seal_snoc. reflexivity.
Qed.

Lemma Forall_removelast {A : Type} (P : A -> Prop) (l : list A) :
  Forall P l -> Forall P (removelast l).
Proof.
  induction 1 as [|x l Hx Hl IH]; [constructor|].
  simpl. destruct l; [constructor|]. constructor; assumption.
Qed.

Lemma Forall_last {A : Type} (P : A -> Prop) (l : list A) (d : A) :
  l <> [] -> Forall P l -> P (last l d).
Proof.
  intros Hne H. destruct (exists_last Hne) as (l' & x & ->).
  rewrite last_last. apply Forall_app in H as [_ H]. now inversion H.
Qed.

(** Documents that fit in a bin give bins of at most [ctx] tokens. *)
Lemma pack_loop_bounded (docs : list (list Z)) :
  Forall (fun a => len a + 1 <= ctx) docs ->
  Forall (fun b => len b <= ctx) (loop docs).
Proof.
  induction docs as [|a pre IH] using rev_ind; intros H.
  - constructor.
  - apply Forall_app in H as [Hpre Ha]. inversion Ha as [|? ? Hfit _]; subst.
    specialize (IH Hpre). rewrite pack_loop_snoc.
    destruct (pack_step_cases (loop pre) a) as [Hnew|[Hsome Hle]].
    + rewrite (pack_step_new _ _ Hnew). apply Forall_app. split; [assumption|].
      constructor; [|constructor].
      unfold len in *. rewrite length_app. simpl. lia.
    + rewrite (pack_step_same _ _ Hsome Hle). apply Forall_app. split.
      * now apply Forall_removelast.
      * constructor; [|constructor].
        unfold len in *. rewrite !length_app. simpl. lia.
Qed.

Lemma In_removelast {A : Type} (l : list A) (y d : A) :
  In y l -> y <> last l d -> In y (removelast l).
Proof.
  intros Hin Hy. destruct l as [|x l]; [contradiction|].
  destruct (exists_last (l := x :: l)) as (l' & z & E); [discriminate|].
  rewrite E in *. rewrite last_last in Hy. rewrite removelast_snoc.
  apply in_app_or in Hin as [H|[H|[]]]; [assumption|congruence].
Qed.

(** A document too long for a bin sits alone, whole, in a bin of its own. *)
Lemma pack_loop_oversized (docs : list (list Z)) (a : list Z) :
  In a docs -> len a + 1 > ctx -> In (a ++ [eos_token]) (loop docs).
Proof.
  intros Hin Hbig. induction docs as [|x pre IH] using rev_ind; [contradiction|].
  rewrite pack_loop_snoc.
  assert (Hpos : forall l : bin, 0 <= len l) by (intros; unfold len; lia).
  apply in_app_or in Hin as [Hin|[<-|[]]].
  - specialize (IH Hin).
    destruct (pack_step_cases (loop pre) x) as [Hnew|[Hsome Hle]].
    + rewrite (pack_step_new _ _ Hnew). apply in_or_app. now left.
    + rewrite (pack_step_same _ _ Hsome Hle). apply in_or_app. left.
      apply (In_removelast (A := bin)) with (d := @nil Z); [assumption|].
      intros E. apply (f_equal (@length Z)) in E.
      rewrite length_app in E. simpl in E. specialize (Hpos x).
      unfold len, bin in *. lia.
  - rewrite pack_step_new.
    + apply in_or_app. right. now left.
    + right. specialize (Hpos (last (loop pre) [])). lia.
Qed.

End PackLoop.

(** ** The padding loop *)

Section Padding.

Variable pad : Z.
Hypothesis pad_nonzero : pad <> 0.

Lemma pad_while_eq (fuel : nat) (bins : list bin) :
  pad_while fuel pad bins
  = if len bins mod pad =? 0 then Ok bins
    else match fuel with
         | O => OutOfFuel
         | S fuel' => pad_while fuel' pad (bins ++ [[]])
         end.
Proof.
  destruct fuel; simpl; unfold py_mod;
    destruct (Z.eqb_spec pad 0); try contradiction; reflexivity.
Qed.

Lemma mod_zero_iff (n : Z) : n mod pad = 0 <-> (- n) mod Z.abs pad = 0.
Proof.
  rewrite !Z.mod_divide by lia.
  rewrite Z.divide_abs_l, Z.divide_opp_r. reflexivity.
Qed.

Lemma mod_abs_pred (n : Z) :
  (- n) mod Z.abs pad <> 0 ->
  (- (n + 1)) mod Z.abs pad = (- n) mod Z.abs pad - 1.
Proof.
  intros H.
  assert (Hm : 0 < Z.abs pad) by lia.
  pose proof (Z.mod_pos_bound (- n) (Z.abs pad) Hm) as Hb.
  symmetry. apply Z.mod_unique with (q := (- n) / Z.abs pad); [left; lia|].
  pose proof (Z.div_mod (- n) (Z.abs pad)). lia.
Qed.

Lemma pad_count_lt (n : Z) : (Z.of_nat (pad_count pad n) < Z.abs pad).
Proof.
  unfold pad_count.
  pose proof (Z.mod_pos_bound (- n) (Z.abs pad)). lia.
Qed.

Lemma pad_count_multiple (n : Z) : (n + Z.of_nat (pad_count pad n)) mod pad = 0.
Proof.
  unfold pad_count.
  pose proof (Z.mod_pos_bound (- n) (Z.abs pad)) as Hb.
  rewrite Z2Nat.id by lia.
  apply mod_zero_iff.
  pose proof (Z.div_mod (- n) (Z.abs pad)) as Hd.
  replace (- (n + (- n) mod Z.abs pad)) with ((- n) / Z.abs pad * Z.abs pad) by lia.
  apply Z_mod_mult.
Qed.

(** With fuel for [pad_count] turns the loop ends, and appends
    [pad_count] empty bins. *)
Lemma pad_while_spec (fuel : nat) :
  forall bins : list bin,
    (pad_count pad (len bins) <= fuel)%nat ->
    pad_while fuel pad bins = Ok (bins ++ repeat [] (pad_count pad (len bins))).
Proof.
  induction fuel as [|fuel IH]; intros bins Hfuel; rewrite pad_while_eq.
  - assert (E : (- len bins) mod Z.abs pad = 0).
    { unfold pad_count in Hfuel.
      pose proof (Z.mod_pos_bound (- len bins) (Z.abs pad)). lia. }
    rewrite (proj2 (mod_zero_iff _) E). simpl.
    unfold pad_count. rewrite E. simpl. now rewrite app_nil_r.
  - destruct (Z.eqb_spec (len bins mod pad) 0) as [E|E].
    + apply mod_zero_iff in E. unfold pad_count. rewrite E. simpl.
      now rewrite app_nil_r.
    + assert (E' : (- len bins) mod Z.abs pad <> 0) by (now rewrite <- mod_zero_iff).
      assert (Hlen : len (bins ++ [[]]) = len bins + 1).
      { unfold len. rewrite length_app. simpl. lia. }
      assert (Hc : pad_count pad (len bins) = S (pad_count pad (len (bins ++ [[]])))).
      { unfold pad_count. rewrite Hlen, (mod_abs_pred _ E').
        pose proof (Z.mod_pos_bound (- len bins) (Z.abs pad)). lia. }
      rewrite IH by lia.
      rewrite Hc. simpl. now rewrite <- app_assoc.
Qed.

Lemma pad_while_total (bins : list bin) :
  pad_while (Z.abs_nat pad) pad bins
  = Ok (bins ++ repeat [] (pad_count pad (len bins))).
Proof.
  apply pad_while_spec. pose proof (pad_count_lt (len bins)). lia.
Qed.

End Padding.

(** ** Filling the matrix *)

Lemma skipn_repeat {A : Type} (x : A) (k n : nat) :
  skipn k (repeat x n) = repeat x (n - k).
Proof.
  revert k. induction n as [|n IH]; intros [|k]; simpl; try reflexivity.
  apply IH.
Qed.

Lemma assign_slice_dummy (w : nat) (b : bin) :
  assign_slice (repeat dummy_token w) b
  = if stores w b then Ok (packed_row w b) else Raise (slice_error b).
Proof.
  unfold assign_slice, stores, slice_error, fits, packed_row. rewrite repeat_length.
  destruct (forallb c_long b); simpl; [|reflexivity].
  destruct (Nat.leb_spec (length b) w) as [Hle|Hgt].
  - rewrite Nat.min_l by lia. rewrite Nat.eqb_refl. simpl.
    now rewrite skipn_repeat.
  - rewrite Nat.min_r by lia.
    destruct (Nat.eqb_spec (length b) w) as [|_]; [lia|]. simpl.
    destruct (Nat.eqb_spec (length b) 1) as [E|_]; [|reflexivity].
    assert (w = 0%nat) as -> by lia. reflexivity.
Qed.

Lemma set_row_app (done todo : list (list Z)) (row row' : list Z) :
  set_row (length done) row' (done ++ row :: todo) = done ++ row' :: todo.
Proof. induction done as [|r done IH]; simpl; [reflexivity|now rewrite IH]. Qed.

(** The rows are filled in order, up to the first bin that is not
    stored. *)
Lemma fill_from_dummy (w : nat) (bins : list bin) :
  forall done : list (list Z),
    fill_from (length done) bins
              (done ++ repeat (repeat dummy_token w) (length bins))
    = match find (fun b => negb (stores w b)) bins with
      | None => Ok (done ++ map (packed_row w) bins)
      | Some b => Raise (slice_error b)
      end.
Proof.
  induction bins as [|b rest IH]; intros done; simpl.
  - reflexivity.
  - rewrite nth_error_app2 by lia. rewrite Nat.sub_diag. simpl.
    rewrite assign_slice_dummy.
    destruct (stores w b); simpl; [|reflexivity].
    rewrite set_row_app.
    replace (S (length done)) with (length (done ++ [packed_row w b]))
      by (rewrite length_app; simpl; lia).
    replace (done ++ packed_row w b :: repeat (repeat dummy_token w) (length rest))
      with ((done ++ [packed_row w b]) ++ repeat (repeat dummy_token w) (length rest))
      by (now rewrite <- app_assoc).
    rewrite IH. destruct (find _ rest); [reflexivity|].
    now rewrite <- app_assoc.
Qed.

(** ** The outcome of [bin_pack] *)

Lemma find_not_stored_padded (w : nat) (bins : list bin) (k : nat) :
  find (fun b => negb (stores w b)) (bins ++ repeat [] k)
  = find (fun b => negb (stores w b)) bins.
Proof.
  induction bins as [|b bins IH]; simpl.
  - induction k as [|k IHk]; simpl; [reflexivity|exact IHk].
  - destruct (stores w b); simpl; [exact IH|reflexivity].
Qed.

Lemma find_not_stored_none (w : nat) (bins : list bin) :
  find (fun b => negb (stores w b)) bins = None
  <-> forallb c_long (concat bins) = true /\ forallb (fits w) bins = true.
Proof.
  induction bins as [|b bins IH]; simpl; [tauto|].
  rewrite forallb_app. unfold stores at 1.
  destruct (forallb c_long b); simpl.
  - destruct (fits w b); simpl; [exact IH|].
    split; [discriminate|intros [_ H]; discriminate].
  - split; [discriminate|intros [H _]; discriminate].
Qed.

(** With the bins of the packing loop, then the empty ones of the
    padding. *)
Lemma bin_pack_outcome (p : params) (tokens_data : list (list Z)) :
  let bins := pack_loop (eos_id p) (n_ctx p) tokens_data in
  let padded := bins ++ repeat [] (pad_count (eval_batch_size p) (len bins)) in
  bin_pack p tokens_data
  = if eval_batch_size p =? 0 then Raise ZeroDivisionError
    else if n_ctx p <? 0 then Raise ValueError
    else match find (fun b => negb (stores (Z.to_nat (n_ctx p)) b)) bins with
         | None => Ok (map (packed_row (Z.to_nat (n_ctx p))) padded)
         | Some b => Raise (slice_error b)
         end.
Proof.
  intros bins padded. unfold bin_pack. fold bins.
  destruct (Z.eqb_spec (eval_batch_size p) 0) as [E|E].
  - rewrite E. simpl. unfold py_mod. reflexivity.
  - rewrite (pad_while_total _ E). fold padded. simpl.
    unfold np_full. destruct (n_ctx p <? 0); [reflexivity|]. simpl.
    change (to_uint16 dummy_token) with dummy_token.
    rewrite <- (find_not_stored_padded _ bins
                  (pad_count (eval_batch_size p) (len bins))).
    apply (fill_from_dummy (Z.to_nat (n_ctx p)) padded []).
Qed.

Lemma fits_nil (w : nat) : fits w [] = true.
Proof. reflexivity. Qed.

Lemma forallb_fits_padded (w : nat) (bins : list bin) (k : nat) :
  forallb (fits w) (bins ++ repeat [] k) = forallb (fits w) bins.
Proof.
  rewrite forallb_app.
  replace (forallb (fits w) (repeat [] k)) with true; [apply andb_true_r|].
  symmetry. apply forallb_forall. intros x Hx. apply repeat_spec in Hx.
  subst. reflexivity.
Qed.

Lemma packed_row_nil (w : nat) : packed_row w [] = repeat dummy_token w.
Proof. unfold packed_row. simpl. now rewrite Nat.sub_0_r. Qed.

Lemma packed_row_length (w : nat) (b : bin) : length (packed_row w b) = w.
Proof.
  unfold packed_row. destruct (Nat.leb_spec (length b) w).
  - rewrite length_app, length_map, repeat_length. lia.
  - apply repeat_length.
Qed.

(** Every row of a returned matrix has [n_ctx] cells, and there is one
    row per bin. *)
Lemma bin_pack_shape (p : params) (tokens_data : list (list Z)) (m : list (list Z)) :
  bin_pack p tokens_data = Ok m ->
  let bins := pack_loop (eos_id p) (n_ctx p) tokens_data in
  eval_batch_size p <> 0 /\ 0 <= n_ctx p
  /\ m = map (packed_row (Z.to_nat (n_ctx p)))
           (bins ++ repeat [] (pad_count (eval_batch_size p) (len bins)))
  /\ forallb (fits (Z.to_nat (n_ctx p))) bins = true
  /\ Forall (fun row => len row = n_ctx p) m.
Proof.
  intros H bins. rewrite bin_pack_outcome in H. fold bins in H.
  destruct (Z.eqb_spec (eval_batch_size p) 0); [discriminate|].
  destruct (Z.ltb_spec (n_ctx p) 0); [discriminate|].
  destruct (find _ bins) eqn:F; [discriminate|].
  apply find_not_stored_none in F as [_ F].
  injection H as <-.
  repeat split; try assumption.
  apply Forall_map, Forall_forall. intros b _.
  unfold len. rewrite packed_row_length. lia.
Qed.

(** Bins of at most [n_ctx] tokens fit their rows. *)
Lemma bounded_fits (w : Z) (bins : list bin) :
  Forall (fun b => len b <= w) bins -> forallb (fits (Z.to_nat w)) bins = true.
Proof.
  intros H. apply forallb_forall. intros b Hb.
  rewrite Forall_forall in H. specialize (H b Hb).
  unfold fits. apply orb_true_iff. left. apply Nat.leb_le. unfold len in H. lia.
Qed.

Lemma c_long_iff (v : Z) : c_long v = true <-> in_c_long v.
Proof.
  unfold c_long, in_c_long. rewrite andb_true_iff, !Z.leb_le. reflexivity.
Qed.

Lemma pack_loop_concat (eos_token ctx : Z) (docs : list (list Z)) :
  concat (pack_loop eos_token ctx docs)
  = concat (map (fun a => a ++ [eos_token]) docs).
Proof.
  destruct (pack_loop_groups eos_token ctx docs) as (groups & Hcat & _ & ->).
  rewrite <- Hcat. clear.
  induction groups as [|g groups IH]; [reflexivity|].
  simpl. rewrite map_app, concat_app, IH. reflexivity.
Qed.

(** The integers of the bins are those of the documents, and the eos
    marker. *)
Lemma pack_loop_c_long (eos_token ctx : Z) (docs : list (list Z)) :
  Forall (Forall in_c_long) docs ->
  in_c_long eos_token ->
  forallb c_long (concat (pack_loop eos_token ctx docs)) = true.
Proof.
  intros Hd He. rewrite pack_loop_concat. apply forallb_forall.
  intros v Hv. apply c_long_iff. apply in_concat in Hv as (s & Hs & Hv).
  apply in_map_iff in Hs as (a & <- & Ha).
  apply in_app_or in Hv as [Hv|[<-|[]]]; [|exact He].
  rewrite Forall_forall in Hd. specialize (Hd a Ha).
  rewrite Forall_forall in Hd. now apply Hd.
Qed.

(** Documents that fit, with integers in the range of a C long, always
    give a matrix. *)
Lemma bin_pack_succeeds (p : params) (tokens_data : list (list Z)) :
  eval_batch_size p <> 0 ->
  0 <= n_ctx p ->
  Forall (fun a => len a + 1 <= n_ctx p) tokens_data ->
  Forall (Forall in_c_long) tokens_data ->
  in_c_long (eos_id p) ->
  let bins := pack_loop (eos_id p) (n_ctx p) tokens_data in
  bin_pack p tokens_data
  = Ok (map (packed_row (Z.to_nat (n_ctx p)))
            (bins ++ repeat [] (pad_count (eval_batch_size p) (len bins)))).
Proof.
  intros Hb Hn Hfit Hd He bins. rewrite bin_pack_outcome. fold bins.
  destruct (Z.eqb_spec (eval_batch_size p) 0); [contradiction|].
  destruct (Z.ltb_spec (n_ctx p) 0); [lia|].
  replace (find _ bins) with (@None bin); [reflexivity|].
  symmetry. apply find_not_stored_none. split.
  - now apply pack_loop_c_long.
  - apply bounded_fits. now apply pack_loop_bounded.
Qed.

Lemma pack_loop_nil_iff (eos_token ctx : Z) (docs : list (list Z)) :
  pack_loop eos_token ctx docs = [] <-> docs = [].
Proof.
  split; [|now intros ->].
  destruct (pack_loop_groups eos_token ctx docs) as (groups & Hcat & _ & Hbins).
  intros E. rewrite E in Hbins. destruct groups; [|discriminate].
  now rewrite <- Hcat.
Qed.

(** C2. When every document and its eos marker fit in [context_width],
    the packing loop takes the documents in source order and lays each one
    whole, followed by one eos marker, in a bin: the bins are the documents
    cut into consecutive non-empty groups.  A document opens a new bin
    exactly when there is no bin yet or it would make the last bin, with its
    eos marker, longer than [context_width]; otherwise it goes to the end of
    the last bin.  Every bin, before and after the padding loop, has at most
    [context_width] tokens. *)
Theorem pack_whole_documents (eos_token ctx : Z) (docs : list (list Z)) :
  Forall (fun a => len a + 1 <= ctx) docs ->
  let bins := pack_loop eos_token ctx docs in
  (exists groups : list (list (list Z)),
      concat groups = docs
      /\ Forall (fun g => g <> []) groups
      /\ bins = map (seal eos_token) groups)
  /\ concat bins = concat (map (fun a => a ++ [eos_token]) docs)
  /\ (forall pre a post, docs = pre ++ a :: post ->
        let cur := pack_loop eos_token ctx pre in
        ((cur = [] \/ len (last cur []) + len a + 1 > ctx) ->
         pack_loop eos_token ctx (pre ++ [a]) = cur ++ [a ++ [eos_token]])
        /\ ((cur <> [] /\ len (last cur []) + len a + 1 <= ctx) ->
            pack_loop eos_token ctx (pre ++ [a])
            = removelast cur ++ [last cur [] ++ a ++ [eos_token]]))
  /\ Forall (fun b => len b <= ctx) bins
  /\ (forall pad : Z, pad <> 0 ->
        exists padded,
          pad_while (Z.abs_nat pad) pad bins = Ok padded
          /\ Forall (fun b => len b <= ctx) padded).
Proof.
  intros Hfit bins.
  pose proof (pack_loop_groups eos_token ctx docs) as Hg.
  pose proof (pack_loop_bounded eos_token ctx docs Hfit) as Hb.
  split; [exact Hg|]. split.
  { destruct Hg as (groups & Hcat & _ & Hbins). unfold bins. rewrite Hbins, <- Hcat.
    clear. induction groups as [|g groups IH]; [reflexivity|].
    simpl. rewrite map_app, concat_app, IH. reflexivity. }
  split.
  { intros pre a post _ cur. rewrite pack_loop_snoc. split.
    - apply pack_step_new.
    - intros [H1 H2]. now apply pack_step_same. }
  split; [exact Hb|].
  intros pad Hpad. eexists. split; [apply (pad_while_total _ Hpad)|].
  apply Forall_app. split; [exact Hb|].
  destruct docs as [|a docs].
  - (* no bin: nothing to pad *)
    unfold bins, pad_count. change (- len (pack_loop eos_token ctx [])) with 0.
    rewrite Zmod_0_l. constructor.
  - apply Forall_forall. intros b Hin. apply repeat_spec in Hin. subst b.
    inversion Hfit as [|? ? Ha _]; subst. unfold len in *. simpl. lia.
Qed.

(** Two documents, width 4: the second one would make the first bin five
    tokens long, and opens a bin of its own. *)
Lemma pack_whole_documents_witness :
  Forall (fun a => len a + 1 <= 4) [[5; 6]; [7]]
  /\ pack_loop 0 4 [[5; 6]; [7]] = [[5; 6; 0]; [7; 0]]
  /\ Forall (fun b => len b <= 4) (pack_loop 0 4 [[5; 6]; [7]]).
Proof.
  assert (H : Forall (fun a => len a + 1 <= 4) [[5; 6]; [7]])
    by (repeat constructor; vm_compute; discriminate).
  split; [exact H|]. split; [reflexivity|].
  destruct (pack_whole_documents 0 4 [[5; 6]; [7]] H) as (_ & _ & _ & Hb & _).
  exact Hb.
Defined.

(** C7. For a batch size of at least 1 the padding loop ends, with fewer
    than [batch_multiple] empty bins appended and a number of bins that is a
    multiple of the batch size.  The matrix [bin_pack] returns has one row
    per bin, so a multiple of [batch_multiple] rows, and the rows after those
    of the packed documents are dummy tokens only.  A matrix is returned
    whenever every document and its eos marker fit in the width and the
    tokens and the eos marker are in the range of a C long. *)
Theorem bin_pack_rows_multiple (p : params) (tokens_data : list (list Z)) :
  1 <= eval_batch_size p ->
  let bins := pack_loop (eos_id p) (n_ctx p) tokens_data in
  (exists extra : nat,
      pad_while (Z.abs_nat (eval_batch_size p)) (eval_batch_size p) bins
      = Ok (bins ++ repeat [] extra)
      /\ (len bins + Z.of_nat extra) mod eval_batch_size p = 0
      /\ Z.of_nat extra < eval_batch_size p)
  /\ (forall m, bin_pack p tokens_data = Ok m ->
        len m mod eval_batch_size p = 0
        /\ len bins <= len m < len bins + eval_batch_size p
        /\ (forall i, (length bins <= i < length m)%nat ->
                      nth_error m i = Some (repeat dummy_token (Z.to_nat (n_ctx p)))))
  /\ (0 <= n_ctx p ->
      Forall (fun a => len a + 1 <= n_ctx p) tokens_data ->
      Forall (Forall in_c_long) tokens_data ->
      in_c_long (eos_id p) ->
      exists m, bin_pack p tokens_data = Ok m).
Proof.
  intros Hb bins.
  assert (Hnz : eval_batch_size p <> 0) by lia.
  pose proof (pad_count_lt _ Hnz (len bins)) as Hlt.
  pose proof (pad_count_multiple _ Hnz (len bins)) as Hmul.
  rewrite Z.abs_eq in Hlt by lia.
  split.
  { exists (pad_count (eval_batch_size p) (len bins)).
    split; [apply (pad_while_total _ Hnz)|]. split; assumption. }
  split.
  - intros m Hm. apply bin_pack_shape in Hm as (_ & _ & -> & _ & _).
    fold bins.
    assert (Hlen : len (map (packed_row (Z.to_nat (n_ctx p)))
                            (bins ++ repeat [] (pad_count (eval_batch_size p) (len bins))))
                   = len bins + Z.of_nat (pad_count (eval_batch_size p) (len bins))).
    { unfold len. rewrite length_map, length_app, repeat_length. lia. }
    rewrite Hlen. split; [assumption|]. split; [lia|].
    intros i Hi. rewrite length_map, length_app, repeat_length in Hi.
    rewrite nth_error_map, nth_error_app2 by lia.
    rewrite nth_error_repeat by lia. simpl. now rewrite packed_row_nil.
  - intros Hn Hfit Hd He. eexists. now apply bin_pack_succeeds.
Qed.

(** Two bins padded to four rows. *)
Lemma bin_pack_rows_multiple_witness :
  1 <= eval_batch_size (gpt2 0 4 4)
  /\ (forall m, bin_pack (gpt2 0 4 4) [[5; 6]; [7]] = Ok m -> len m mod 4 = 0).
Proof.
  assert (H : 1 <= eval_batch_size (gpt2 0 4 4)) by (simpl; lia).
  split; [exact H|].
  intros m Hm.
  destruct (bin_pack_rows_multiple (gpt2 0 4 4) [[5; 6]; [7]] H) as (_ & Hr & _).
  destruct (Hr m Hm) as (Hmod & _). exact Hmod.
Defined.

(** C3, as the code has it.  With no document there is no bin, and 0 is a
    multiple of every batch size: for a batch size of at least 1 and a
    width that is not negative, [bin_pack] returns the matrix with no row. *)
Theorem bin_pack_empty (p : params) :
  1 <= eval_batch_size p ->
  0 <= n_ctx p ->
  bin_pack p [] = Ok [].
Proof.
  intros Hb Hn. rewrite bin_pack_outcome.
  destruct (Z.eqb_spec (eval_batch_size p) 0); [lia|].
  destruct (Z.ltb_spec (n_ctx p) 0); [lia|].
  unfold pad_count. change (- len (pack_loop (eos_id p) (n_ctx p) [])) with 0.
  rewrite Zmod_0_l. reflexivity.
Qed.

Lemma bin_pack_empty_witness : bin_pack (gpt2 0 4 4) [] = Ok [].
Proof. apply (bin_pack_empty (gpt2 0 4 4)); simpl; lia. Defined.

(** C3 fails as stated: no document and a batch size of 4 give a matrix
    with no row, not one with at least 4 rows. *)
Lemma bin_pack_empty_has_no_row :
  ~ (exists m, bin_pack (gpt2 0 4 4) [] = Ok m
               /\ eval_batch_size (gpt2 0 4 4) <= len m).
Proof.
  intros (m & Hm & Hrows). vm_compute in Hm. injection Hm as <-.
  vm_compute in Hrows. apply Hrows. reflexivity.
Qed.

(** ** Documents longer than the width *)

Lemma oversized_bin_fits (p : params) (tokens_data : list (list Z)) (a : list Z) :
  In a tokens_data ->
  len a + 1 > n_ctx p ->
  forallb (fits (Z.to_nat (n_ctx p)))
          (pack_loop (eos_id p) (n_ctx p) tokens_data) = true ->
  0 <= n_ctx p ->
  a = [] /\ n_ctx p = 0.
Proof.
  intros Hin Hbig Hall Hn.
  pose proof (pack_loop_oversized (eos_id p) (n_ctx p) tokens_data a Hin Hbig) as Hb.
  rewrite forallb_forall in Hall. specialize (Hall _ Hb).
  unfold fits in Hall. rewrite length_app in Hall. simpl in Hall.
  apply orb_true_iff in Hall as [H|H].
  - apply Nat.leb_le in H. unfold len in Hbig. lia.
  - apply Nat.eqb_eq in H. destruct a; [|simpl in H; lia].
    split; [reflexivity|]. unfold len in Hbig. simpl in Hbig. lia.
Qed.

(** Concrete integers in the range of a C long. *)
Ltac c_long_range :=
  repeat first [ apply Forall_nil | apply Forall_cons
               | (unfold in_c_long; simpl; lia) ].

Lemma in_range_slice_error (eos_token ctx : Z) (docs : list (list Z)) (b : bin) :
  Forall (Forall in_c_long) docs ->
  in_c_long eos_token ->
  In b (pack_loop eos_token ctx docs) ->
  slice_error b = ValueError.
Proof.
  intros Hd He Hb. unfold slice_error.
  replace (forallb c_long b) with true; [reflexivity|].
  symmetry. apply forallb_forall. intros v Hv.
  pose proof (pack_loop_c_long eos_token ctx docs Hd He) as Hall.
  rewrite forallb_forall in Hall. apply Hall. apply in_concat. now exists b.
Qed.

(** C4, as the code has it.  A document that, with its eos marker, is
    longer than [context_width] is neither split nor truncated by the
    packing loop: it stands whole, with its eos marker, alone in a bin that
    is longer than [context_width].  That bin never reaches the caller: a
    returned matrix has rows of [context_width] cells only, and is returned
    only when the document is empty and the width is 0; for a non-empty
    document [bin_pack] raises an error, which, when the tokens and the eos
    marker are in the range of a C long, is [ValueError] unless the batch
    size is 0. *)
Theorem bin_pack_oversized (p : params) (tokens_data : list (list Z)) (a : list Z) :
  In a tokens_data ->
  len a + 1 > n_ctx p ->
  In (a ++ [eos_id p]) (pack_loop (eos_id p) (n_ctx p) tokens_data)
  /\ len (a ++ [eos_id p]) > n_ctx p
  /\ (forall m, bin_pack p tokens_data = Ok m ->
        Forall (fun row => len row = n_ctx p) m /\ a = [] /\ n_ctx p = 0)
  /\ (a <> [] ->
      (exists e, bin_pack p tokens_data = Raise e)
      /\ (Forall (Forall in_c_long) tokens_data ->
          in_c_long (eos_id p) ->
          bin_pack p tokens_data
          = Raise (if eval_batch_size p =? 0 then ZeroDivisionError
                   else ValueError))).
Proof.
  intros Hin Hbig.
  split; [now apply pack_loop_oversized|].
  split; [unfold len in *; rewrite length_app; simpl; lia|].
  split.
  - intros m Hm. apply bin_pack_shape in Hm as (_ & Hn & _ & Hall & Hrows).
    split; [exact Hrows|]. now apply (oversized_bin_fits p tokens_data a).
  - intros Ha. rewrite bin_pack_outcome.
    destruct (eval_batch_size p =? 0); [split; [eexists|]; reflexivity|].
    destruct (Z.ltb_spec (n_ctx p) 0) as [|Hn]; [split; [eexists|]; reflexivity|].
    destruct (find _ _) as [b|] eqn:F.
    + split; [eexists; reflexivity|]. intros Hd He.
      apply find_some in F as [Hb _].
      now rewrite (in_range_slice_error (eos_id p) (n_ctx p) tokens_data b).
    + apply find_not_stored_none in F as [_ Hall].
      destruct (oversized_bin_fits p tokens_data a Hin Hbig Hall Hn) as [E _].
      contradiction.
Qed.

Lemma bin_pack_oversized_witness :
  In [5; 6; 7; 8] [[5; 6; 7; 8]]
  /\ len [5; 6; 7; 8] + 1 > n_ctx (gpt2 0 4 1)
  /\ bin_pack (gpt2 0 4 1) [[5; 6; 7; 8]] = Raise ValueError.
Proof.
  assert (Hin : In [5; 6; 7; 8] [[5; 6; 7; 8]]) by (left; reflexivity).
  assert (Hbig : len [5; 6; 7; 8] + 1 > n_ctx (gpt2 0 4 1)) by (vm_compute; reflexivity).
  split; [exact Hin|]. split; [exact Hbig|].
  destruct (bin_pack_oversized (gpt2 0 4 1) [[5; 6; 7; 8]] [5; 6; 7; 8] Hin Hbig)
    as (_ & _ & _ & H).
  destruct H as [_ H]; [discriminate|].
  apply H; c_long_range.
Defined.

(** C4 fails as stated: a document of four tokens and a width of 4 give a
    bin of five tokens, and the row assignment raises [ValueError]; no
    matrix is returned. *)
Lemma bin_pack_oversized_raises :
  pack_loop 0 4 [[5; 6; 7; 8]] = [[5; 6; 7; 8; 0]]
  /\ bin_pack (gpt2 0 4 1) [[5; 6; 7; 8]] = Raise ValueError
  /\ ~ (exists m, bin_pack (gpt2 0 4 1) [[5; 6; 7; 8]] = Ok m).
Proof.
  split; [reflexivity|]. split; [reflexivity|].
  intros (m & Hm). vm_compute in Hm. discriminate.
Qed.

(** ** Parameters that are not positive *)

(** C5, as the code has it.  [bin_pack] checks no parameter.  A batch
    size of 0 raises [ZeroDivisionError], in the modulo of the padding loop,
    whatever the documents; with another batch size a negative width raises
    [ValueError], from the allocation of the matrix; and with a batch size
    other than 0, negative ones included, and a width of 0 or more, a matrix
    is returned whenever every document and its eos marker fit in the width
    and the tokens and the eos marker are in the range of a C long.  The
    errors that come out are [ZeroDivisionError], [ValueError] and
    [OverflowError], the last one only for a token or an eos marker outside
    the range of a C long; the padding loop always ends. *)
Theorem bin_pack_failures (p : params) (tokens_data : list (list Z)) :
  (eval_batch_size p = 0 -> bin_pack p tokens_data = Raise ZeroDivisionError)
  /\ (eval_batch_size p <> 0 -> n_ctx p < 0 ->
      bin_pack p tokens_data = Raise ValueError)
  /\ (eval_batch_size p <> 0 -> 0 <= n_ctx p ->
      Forall (fun a => len a + 1 <= n_ctx p) tokens_data ->
      Forall (Forall in_c_long) tokens_data ->
      in_c_long (eos_id p) ->
      exists m, bin_pack p tokens_data = Ok m)
  /\ (forall e, bin_pack p tokens_data = Raise e ->
                e = ZeroDivisionError \/ e = ValueError \/ e = OverflowError)
  /\ (Forall (Forall in_c_long) tokens_data ->
      in_c_long (eos_id p) ->
      bin_pack p tokens_data <> Raise OverflowError)
  /\ bin_pack p tokens_data <> OutOfFuel.
Proof.
  split; [|split; [|split; [|split; [|split]]]].
  - intros Hz. rewrite bin_pack_outcome, Hz. reflexivity.
  - intros Hb Hn. rewrite bin_pack_outcome.
    destruct (Z.eqb_spec (eval_batch_size p) 0); [contradiction|].
    destruct (Z.ltb_spec (n_ctx p) 0); [reflexivity|lia].
  - intros Hb Hn Hfit Hd He. eexists. now apply bin_pack_succeeds.
  - intros e. rewrite bin_pack_outcome.
    destruct (_ =? 0); [intros [= <-]; now left|].
    destruct (_ <? 0); [intros [= <-]; right; now left|].
    destruct (find _ _) as [b|]; [|discriminate].
    intros [= <-]. unfold slice_error. destruct (forallb c_long b); auto.
  - intros Hd He. rewrite bin_pack_outcome.
    destruct (_ =? 0); [discriminate|].
    destruct (_ <? 0); [discriminate|].
    destruct (find _ _) as [b|] eqn:F; [|discriminate].
    apply find_some in F as [Hb _].
    rewrite (in_range_slice_error (eos_id p) (n_ctx p) tokens_data b) by assumption.
    discriminate.
  - rewrite bin_pack_outcome.
    destruct (_ =? 0); [discriminate|].
    destruct (_ <? 0); [discriminate|].
    destruct (find _ _); discriminate.
Qed.

Lemma bin_pack_failures_witness :
  bin_pack (gpt2 0 4 0) [[5]] = Raise ZeroDivisionError
  /\ bin_pack (gpt2 0 (-1) 2) [[5]] = Raise ValueError
  /\ exists m, bin_pack (gpt2 0 4 (-2)) [[5]] = Ok m.
Proof.
  split; [|split].
  - apply (bin_pack_failures (gpt2 0 4 0) [[5]]). reflexivity.
  - apply (bin_pack_failures (gpt2 0 (-1) 2) [[5]]); simpl; lia.
  - apply (bin_pack_failures (gpt2 0 4 (-2)) [[5]]); simpl; try lia.
    + repeat constructor. vm_compute. discriminate.
    + c_long_range.
    + c_long_range.
Defined.

(** C5 fails as stated: a width of 0 with no document, and a batch size of
    -2, are accepted and give a matrix. *)
Lemma bin_pack_accepts_nonpositive :
  n_ctx (gpt2 0 0 1) <= 0
  /\ bin_pack (gpt2 0 0 1) [] = Ok []
  /\ eval_batch_size (gpt2 0 4 (-2)) <= 0
  /\ bin_pack (gpt2 0 4 (-2)) [[5]] = Ok [[5; 0; 1; 1]; [1; 1; 1; 1]].
Proof.
  repeat split; vm_compute; discriminate.
Qed.

(** ** The cells of a row *)

Lemma znth_nth (l : list Z) (j : Z) : 0 <= j -> znth l j = nth (Z.to_nat j) l 0.
Proof. intros Hj. unfold znth. destruct (Z.ltb_spec j 0); [lia|reflexivity]. Qed.

Lemma packed_row_znth (w : nat) (b : bin) (j : Z) :
  fits w b = true ->
  0 <= j < Z.of_nat w ->
  znth (packed_row w b) j
  = if j <? len b then to_uint16 (znth b j) else dummy_token.
Proof.
  intros Hfit Hj. unfold fits in Hfit. unfold packed_row, len.
  destruct (Nat.leb_spec (length b) w) as [Hle|Hgt].
  - rewrite !znth_nth by lia.
    destruct (Z.ltb_spec j (Z.of_nat (length b))) as [Hlt|Hge].
    + rewrite app_nth1 by (rewrite length_map; lia).
      rewrite (nth_indep _ 0 (to_uint16 0)) by (rewrite length_map; lia).
      apply map_nth.
    + rewrite app_nth2 by (rewrite length_map; lia).
      rewrite length_map. apply nth_repeat_lt. lia.
  - simpl in Hfit. apply Nat.eqb_eq in Hfit. lia.
Qed.

Lemma to_uint16_range (v : Z) : 0 <= to_uint16 v < 65536.
Proof. unfold to_uint16. apply Z.mod_pos_bound. lia. Qed.

Lemma to_uint16_small (v : Z) : 0 <= v < 65536 -> to_uint16 v = v.
Proof. intros H. unfold to_uint16. now apply Z.mod_small. Qed.

(** The bin of row [i] of a returned matrix, and the row. *)
Lemma bin_pack_row (p : params) (tokens_data : list (list Z)) (m : list (list Z))
      (i : nat) (b : bin) :
  bin_pack p tokens_data = Ok m ->
  nth_error (padded_bins p tokens_data) i = Some b ->
  fits (Z.to_nat (n_ctx p)) b = true
  /\ nth_error m i = Some (packed_row (Z.to_nat (n_ctx p)) b).
Proof.
  intros Hm Hb. apply bin_pack_shape in Hm as (_ & _ & -> & Hall & _).
  fold (padded_bins p tokens_data).
  split.
  - rewrite <- (forallb_fits_padded _ _ (pad_count (eval_batch_size p)
                  (len (pack_loop (eos_id p) (n_ctx p) tokens_data)))) in Hall.
    rewrite forallb_forall in Hall. apply Hall. eapply nth_error_In. exact Hb.
  - rewrite nth_error_map. now rewrite Hb.
Qed.

Lemma padded_bins_nth (p : params) (tokens_data : list (list Z)) (i : nat) (b : bin) :
  nth_error (pack_loop (eos_id p) (n_ctx p) tokens_data) i = Some b ->
  nth_error (padded_bins p tokens_data) i = Some b.
Proof.
  intros Hb. unfold padded_bins.
  rewrite nth_error_app1 by (apply nth_error_Some; congruence). exact Hb.
Qed.

(** C8, as the code has it.  Row [i] of the matrix is the row of bin [i],
    for the bins of the documents and for the empty bins of the padding
    alike: it has [n_ctx] cells; every cell at or after the length of the
    bin is the dummy token 1; the cells before it are the tokens of the bin,
    in order from column 0, each one as a 16-bit cell keeps it, that is
    modulo 65536, which is the token itself when it is below 65536. *)
Theorem bin_pack_row_layout (p : params) (tokens_data : list (list Z))
        (m : list (list Z)) (i : nat) (b : bin) :
  bin_pack p tokens_data = Ok m ->
  nth_error (padded_bins p tokens_data) i = Some b ->
  exists row,
    nth_error m i = Some row
    /\ len row = n_ctx p
    /\ (forall j, len b <= j < n_ctx p -> znth row j = 1)
    /\ (forall j, 0 <= j < len b -> j < n_ctx p ->
                  znth row j = znth b j mod 65536)
    /\ (forall j, 0 <= j < len b -> j < n_ctx p ->
                  0 <= znth b j < 65536 -> znth row j = znth b j).
Proof.
  intros Hm Hb.
  destruct (bin_pack_row p tokens_data m i b Hm Hb) as [Hfit Hrow].
  apply bin_pack_shape in Hm as (_ & Hn & _ & _ & _).
  exists (packed_row (Z.to_nat (n_ctx p)) b).
  split; [exact Hrow|].
  split; [unfold len; rewrite packed_row_length; lia|].
  assert (Hlen : 0 <= len b) by (unfold len; lia).
  repeat split; intros j Hj.
  - rewrite packed_row_znth by (assumption || lia).
    destruct (Z.ltb_spec j (len b)); [lia|reflexivity].
  - intros Hw. rewrite packed_row_znth by (assumption || lia).
    destruct (Z.ltb_spec j (len b)); [reflexivity|lia].
  - intros Hw Hv. rewrite packed_row_znth by (assumption || lia).
    destruct (Z.ltb_spec j (len b)); [now apply to_uint16_small|lia].
Qed.

Lemma bin_pack_row_layout_witness :
  exists row,
    nth_error [[5; 6; 0; 1]; [7; 0; 1; 1]] 1 = Some row
    /\ len row = 4
    /\ (forall j, 2 <= j < 4 -> znth row j = 1).
Proof.
  destruct (bin_pack_row_layout (gpt2 0 4 1) [[5; 6]; [7]]
              [[5; 6; 0; 1]; [7; 0; 1; 1]] 1 [7; 0] eq_refl eq_refl)
    as (row & H1 & H2 & H3 & _).
  exists row. split; [exact H1|]. split; [exact H2|exact H3].
Defined.

(** C8 fails as stated: the token 70000 of the bin [70000; 0] is not in
    the row, whose first cell holds 4464. *)
Lemma bin_pack_row_not_the_tokens :
  pack_loop 0 4 [[70000]] = [[70000; 0]]
  /\ bin_pack (gpt2 0 4 1) [[70000]] = Ok [[4464; 0; 1; 1]]
  /\ znth [4464; 0; 1; 1] 0 <> znth [70000; 0] 0.
Proof.
  split; [reflexivity|]. split; [reflexivity|]. vm_compute. discriminate.
Qed.

(** C10. The cells of the matrix are 16 bits wide: a token or eos marker
    [v] of bin [i], written to cell [j] of row [i], is read back as
    [v mod 65536], a value below 65536, so that a [v] of 65536 or more is
    not read back as [v]. *)
Theorem bin_pack_stores_uint16 (p : params) (tokens_data : list (list Z))
        (m : list (list Z)) (i : nat) (b : bin) (j : Z) :
  bin_pack p tokens_data = Ok m ->
  nth_error (pack_loop (eos_id p) (n_ctx p) tokens_data) i = Some b ->
  0 <= j < len b ->
  j < n_ctx p ->
  let v := znth b j in
  let stored := znth (nth i m []) j in
  stored = v mod 2 ^ 16
  /\ 0 <= stored < 2 ^ 16
  /\ (65536 <= v -> stored <> v).
Proof.
  intros Hm Hb Hj Hw v stored.
  destruct (bin_pack_row p tokens_data m i b Hm (padded_bins_nth _ _ _ _ Hb))
    as [Hfit Hrow].
  apply bin_pack_shape in Hm as (_ & Hn & _ & _ & _).
  assert (E : stored = to_uint16 v).
  { unfold stored, v. rewrite (nth_error_nth _ _ _ Hrow).
    rewrite packed_row_znth by (assumption || lia).
    destruct (Z.ltb_spec j (len b)); [reflexivity|lia]. }
  pose proof (to_uint16_range v) as Hr.
  change (2 ^ 16) with 65536.
  split; [exact E|]. split; [lia|]. intros Hv. lia.
Qed.

(** The token 70000 and the eos marker 65537 of one bin. *)
Lemma bin_pack_stores_uint16_witness :
  bin_pack (mk_params 65537 4 1 50257 None) [[70000]] = Ok [[4464; 1; 1; 1]]
  /\ znth (nth 0 [[4464; 1; 1; 1]] []) 0 = 70000 mod 2 ^ 16
  /\ znth (nth 0 [[4464; 1; 1; 1]] []) 1 = 65537 mod 2 ^ 16.
Proof.
  split; [reflexivity|]. split.
  - destruct (bin_pack_stores_uint16 (mk_params 65537 4 1 50257 None) [[70000]]
                [[4464; 1; 1; 1]] 0 [70000; 65537] 0 eq_refl eq_refl)
      as (H & _); [vm_compute; split; discriminate || reflexivity
                  | reflexivity | exact H].
  - destruct (bin_pack_stores_uint16 (mk_params 65537 4 1 50257 None) [[70000]]
                [[4464; 1; 1; 1]] 0 [70000; 65537] 1 eq_refl eq_refl)
      as (H & _); [vm_compute; split; discriminate || reflexivity
                  | reflexivity | exact H].
Defined.

(** * The batch stream *)

Section Batches.

Context {A : Type}.
Variable bs : nat.
Hypothesis bs_pos : (0 < bs)%nat.

(** The batches are full, and with what is left in the buffer they are
    the elements read so far, in order. *)
Lemma batch_go_spec (l : list A) :
  forall buf : list A,
    (length buf < bs)%nat ->
    Forall (fun g => length g = bs) (batch_go bs buf l)
    /\ exists rest, buf ++ l = concat (batch_go bs buf l) ++ rest
                    /\ (length rest < bs)%nat.
Proof.
  induction l as [|x t IH]; intros buf Hbuf; simpl.
  - split; [constructor|]. exists buf. now rewrite app_nil_r.
  - destruct (Nat.eqb_spec (length (buf ++ [x])) bs) as [E|E].
    + destruct (IH [] bs_pos) as (Hfull & rest & Hcat & Hrest).
      split; [constructor; assumption|].
      exists rest. split; [|assumption].
      simpl in Hcat. simpl. rewrite <- !app_assoc, <- Hcat. reflexivity.
    + assert (Hlt : (length (buf ++ [x]) < bs)%nat).
      { rewrite length_app in *. simpl in *. lia. }
      destruct (IH _ Hlt) as (Hfull & rest & Hcat & Hrest).
      split; [assumption|].
      exists rest. split; [|assumption].
      rewrite <- Hcat, <- app_assoc. reflexivity.
Qed.

Lemma length_concat_full (gs : list (list A)) :
  Forall (fun g => length g = bs) gs ->
  length (concat gs) = (length gs * bs)%nat.
Proof.
  induction 1 as [|g gs Hg _ IH]; [reflexivity|].
  simpl. rewrite length_app, IH, Hg. reflexivity.
Qed.

(** Batch [k] is the [k]-th run of [bs] elements. *)
Lemma chunks_nth (gs : list (list A)) (rest : list A) :
  Forall (fun g => length g = bs) gs ->
  forall k, (k < length gs)%nat ->
            nth k gs [] = firstn bs (skipn (k * bs) (concat gs ++ rest)).
Proof.
  induction 1 as [|g gs Hg _ IH]; intros k Hk; simpl in Hk; [lia|].
  simpl concat. rewrite <- app_assoc.
  destruct k as [|k]; simpl.
  - rewrite <- Hg, firstn_app, Nat.sub_diag, firstn_all. simpl.
    now rewrite app_nil_r.
  - rewrite skipn_app, skipn_all2 by lia. simpl.
    replace (bs + k * bs - length g)%nat with (k * bs)%nat by lia.
    apply IH. lia.
Qed.

End Batches.

Section Repeat.

Context {A : Type}.
Variable l : list A.
Hypothesis l_nonempty : l <> [].

Lemma length_pos : (0 < length l)%nat.
Proof. destruct l; [contradiction|simpl; lia]. Qed.

Lemma repeat_take_length (n : nat) :
  forall pos, length (repeat_take n l pos) = n.
Proof.
  induction n as [|n IH]; intros pos; simpl; [reflexivity|].
  unfold repeat_next. destruct (nth_error l pos).
  - simpl. now rewrite IH.
  - destruct l; [contradiction|]. simpl. now rewrite IH.
Qed.

(** From position [pos] the iterator yields the elements at
    [pos], [pos + 1], ... counted around the dataset. *)
Lemma repeat_take_from (n : nat) :
  forall pos j,
    (pos <= length l)%nat -> (j < n)%nat ->
    nth_error (repeat_take n l pos) j = nth_error l ((pos + j) mod length l).
Proof.
  pose proof length_pos as Hpos.
  induction n as [|n IH]; intros pos j Hp Hj; [lia|].
  simpl. unfold repeat_next. destruct (nth_error l pos) as [x|] eqn:E.
  - assert (Hlt : (pos < length l)%nat) by (apply nth_error_Some; congruence).
    destruct j as [|j]; simpl.
    + now rewrite Nat.add_0_r, Nat.mod_small.
    + rewrite IH by lia. f_equal. f_equal. lia.
  - apply nth_error_None in E. assert (pos = length l) as -> by lia.
    destruct l as [|x l'] eqn:El; [contradiction|]. rewrite <- El in *.
    assert (Hhd : nth_error l 0 = Some x) by (now rewrite El).
    destruct j as [|j]; simpl.
    + now rewrite Nat.add_0_r, Nat.Div0.mod_same.
    + rewrite IH by lia. f_equal.
      replace (length l + S j)%nat with (1 + j + 1 * length l)%nat by lia.
      now rewrite Nat.Div0.mod_add.
Qed.

(** One pass yields the dataset itself. *)
Lemma repeat_take_pass : repeat_take (length l) l 0 = l.
Proof.
  apply nth_error_ext. intros j.
  destruct (Nat.lt_ge_cases j (length l)) as [Hlt|Hge].
  - rewrite repeat_take_from by lia. simpl. now rewrite Nat.mod_small.
  - rewrite (proj2 (nth_error_None _ _)) by (rewrite repeat_take_length; lia).
    symmetry. now apply nth_error_None.
Qed.

End Repeat.

Lemma repeat_take_nil {A : Type} (n pos : nat) : repeat_take n (@nil A) pos = [].
Proof. destruct n; simpl; [reflexivity|]. unfold repeat_next. now destruct pos. Qed.

Lemma ds_batch_ok {A : Type} (batch_size : Z) (l : list A) (pass : list (list A)) :
  ds_batch batch_size l = Ok pass <->
  0 < batch_size /\ pass = batch_go (Z.to_nat batch_size) [] l.
Proof.
  unfold ds_batch.
  destruct (Z.ltb_spec batch_size 0); [split; [discriminate|lia]|].
  destruct (Z.eqb_spec batch_size 0); [split; [discriminate|lia]|].
  split; [intros [= <-]; split; [lia|reflexivity]|intros [_ ->]; reflexivity].
Qed.

Lemma ds_batch_spec {A : Type} (batch_size : Z) (l : list A) :
  1 <= batch_size ->
  exists pass rest,
    ds_batch batch_size l = Ok pass
    /\ l = concat pass ++ rest
    /\ Forall (fun g => length g = Z.to_nat batch_size) pass
    /\ len pass = len l / batch_size
    /\ len rest = len l mod batch_size.
Proof.
  intros Hb.
  assert (Hpos : (0 < Z.to_nat batch_size)%nat) by lia.
  destruct (batch_go_spec (Z.to_nat batch_size) Hpos l [] Hpos)
    as (Hfull & rest & Hcat & Hrest).
  simpl in Hcat.
  exists (batch_go (Z.to_nat batch_size) [] l), rest.
  split; [apply ds_batch_ok; split; [lia|reflexivity]|].
  split; [exact Hcat|]. split; [exact Hfull|].
  assert (Hlen : len l = batch_size * len (batch_go (Z.to_nat batch_size) [] l)
                         + len rest).
  { unfold len. rewrite Hcat at 1.
    rewrite length_app, (length_concat_full _ _ Hfull). nia. }
  assert (Hr : 0 <= len rest < batch_size) by (unfold len; lia).
  split.
  - apply Z.div_unique with (r := len rest); [left; exact Hr|exact Hlen].
  - apply Z.mod_unique with (q := len (batch_go (Z.to_nat batch_size) [] l));
      [left; exact Hr|exact Hlen].
Qed.

(** C6. For a matrix of [num_bins] rows and a batch size of at least 1:
    the step count [lambada_init] records, and [lambada_get_task_info]
    reports, is [num_bins // batch_size]; the dataset is cut into that many
    batches, batch [k] being rows [k * batch_size] to
    [(k + 1) * batch_size - 1] with their targets, and the
    [num_bins mod batch_size] rows left at the end are dropped; the stream
    yields these batches in order, then the same ones again, without end:
    its [j]-th batch is batch [j mod n_steps]. *)
Theorem batch_stream_steps (eos_token ctx : Z) (bins_array : list (list Z))
        (batch_size : Z) :
  1 <= batch_size ->
  let dataset := map (_get_output eos_token ctx) bins_array in
  let n_steps := len bins_array / batch_size in
  py_floordiv (len bins_array) batch_size = Ok n_steps
  /\ exists pass dropped,
      ds_batch batch_size dataset = Ok pass
      /\ len pass = n_steps
      /\ dataset = concat pass ++ dropped
      /\ len dropped = len bins_array mod batch_size
      /\ (forall k, (k < length pass)%nat ->
            nth k pass []
            = firstn (Z.to_nat batch_size)
                     (skipn (k * Z.to_nat batch_size) dataset))
      /\ repeat_take (length pass) pass 0 = pass
      /\ (forall n j, (j < n)%nat ->
            nth_error (repeat_take n pass 0) j
            = if Nat.eqb (length pass) 0 then None
              else nth_error pass (j mod length pass))
      /\ (forall p tokens_data,
            bin_pack p tokens_data = Ok bins_array ->
            eval_batch_size p = batch_size ->
            input_eos_token p = eos_token ->
            n_ctx p = ctx ->
            (exists p', lambada_init p tokens_data = Ok p'
                        /\ lambada_get_task_info p' = Ok n_steps)
            /\ forall n, lambada_input p tokens_data n = Ok (repeat_take n pass 0)).
Proof.
  intros Hb dataset n_steps.
  assert (Hdiv : py_floordiv (len bins_array) batch_size = Ok n_steps).
  { unfold py_floordiv. destruct (Z.eqb_spec batch_size 0); [lia|reflexivity]. }
  split; [exact Hdiv|].
  destruct (ds_batch_spec batch_size dataset Hb)
    as (pass & dropped & Hpass & Hcat & Hfull & Hlen & Hrest).
  assert (Hds : len dataset = len bins_array)
    by (unfold dataset, len; now rewrite length_map).
  rewrite Hds in Hlen, Hrest.
  exists pass, dropped.
  split; [exact Hpass|]. split; [exact Hlen|]. split; [exact Hcat|].
  split; [exact Hrest|]. split.
  { intros k Hk. rewrite Hcat. apply chunks_nth; (assumption || lia). }
  split.
  { destruct pass as [|g pass']; [reflexivity|]. now apply repeat_take_pass. }
  split.
  { intros n j Hj. destruct pass as [|g pass'].
    - rewrite repeat_take_nil. now destruct j.
    - rewrite repeat_take_from; try discriminate; simpl; try lia. reflexivity. }
  intros p tokens_data Hm Hbs Heos Hctx. split.
  - exists (set_lambada_n_steps n_steps p). unfold lambada_init.
    rewrite Hm. simpl. rewrite Hbs, Hdiv. simpl. split; reflexivity.
  - intros n. unfold lambada_input, lambada_input_pass.
    rewrite Hm. simpl. rewrite Hbs, Heos, Hctx. fold dataset. rewrite Hpass.
    reflexivity.
Qed.

(** Five rows in batches of 2: two batches, the fifth row dropped, and
    the third batch of the stream is the first one again. *)
Lemma batch_stream_steps_witness :
  py_floordiv (len [[1]; [2]; [3]; [4]; [5]]) 2 = Ok 2
  /\ exists pass,
      ds_batch 2 (map (_get_output 0 1) [[1]; [2]; [3]; [4]; [5]]) = Ok pass
      /\ len pass = 2
      /\ nth_error (repeat_take 3 pass 0) 2 = nth_error pass 0.
Proof.
  assert (Hb : 1 <= 2) by lia.
  destruct (batch_stream_steps 0 1 [[1]; [2]; [3]; [4]; [5]] 2 Hb)
    as (Hsteps & pass & dropped & Hpass & Hlen & _ & _ & _ & _ & Hnth & _).
  split; [exact Hsteps|].
  exists pass. split; [exact Hpass|]. split; [exact Hlen|].
  rewrite (Hnth 3%nat 2%nat) by lia.
  assert (E : length pass = 2%nat) by (apply Nat2Z.inj; exact Hlen).
  rewrite E. reflexivity.
Defined.

(** * The two eos markers *)

Lemma seal_last (eos_token : Z) (g : list (list Z)) :
  g <> [] -> last (seal eos_token g) 0 = eos_token.
Proof.
  intros Hg. destruct (exists_last Hg) as (g' & a & ->).
  rewrite seal_snoc, !app_assoc. apply last_last.
Qed.

(** Every bin of the packing loop ends with the marker [eos_token]. *)
Lemma pack_loop_last (eos_token ctx : Z) (docs : list (list Z)) (b : bin) :
  In b (pack_loop eos_token ctx docs) -> last b 0 = eos_token.
Proof.
  destruct (pack_loop_groups eos_token ctx docs) as (groups & _ & Hne & ->).
  intros Hin. apply in_map_iff in Hin as (g & <- & Hg).
  apply seal_last. rewrite Forall_forall in Hne. now apply Hne.
Qed.

(** The pairs of a pass come from [_get_output] with the marker of
    [lambada_input]. *)
Lemma lambada_input_pairs (p : params) (tokens_data : list (list Z))
      (pass : list (list (list Z * list Z))) (batch : list (list Z * list Z))
      (pair : list Z * list Z) :
  lambada_input_pass p tokens_data = Ok pass ->
  In batch pass -> In pair batch ->
  exists m row,
    bin_pack p tokens_data = Ok m /\ In row m
    /\ pair = _get_output (input_eos_token p) (n_ctx p) row.
Proof.
  unfold lambada_input_pass. intros Hpass Hb Hp.
  destruct (bin_pack p tokens_data) as [m| |] eqn:Hm; try discriminate.
  simpl in Hpass. apply ds_batch_ok in Hpass as [Hpos ->].
  assert (H0 : (0 < Z.to_nat (eval_batch_size p))%nat) by lia.
  destruct (batch_go_spec (Z.to_nat (eval_batch_size p)) H0
              (map (_get_output (input_eos_token p) (n_ctx p)) m) [] H0)
    as (_ & rest & Hcat & _).
  simpl in Hcat.
  assert (Hin : In pair (map (_get_output (input_eos_token p) (n_ctx p)) m)).
  { rewrite Hcat. apply in_or_app. left. apply in_concat. now exists batch. }
  apply in_map_iff in Hin as (row & <- & Hrow).
  now exists m, row.
Qed.

(** C9. The eos marker of [lambada_input] is 50256 when [n_vocab] is at
    least 50257 and 0 otherwise, whatever [eos_id] is.  When it differs
    from [eos_id]: the packing loop closes every document, and so every
    bin, with [eos_id], while every target of the stream is derived by
    testing for, and emitting, the other marker. *)
Theorem input_eos_from_vocab (p : params) (tokens_data : list (list Z)) :
  input_eos_token p = (if n_vocab p >=? 50257 then 50256 else 0)
  /\ (forall e, input_eos_token (set_eos_id e p) = input_eos_token p)
  /\ (input_eos_token p <> eos_id p ->
      (exists groups,
          concat groups = tokens_data
          /\ pack_loop (eos_id p) (n_ctx p) tokens_data
             = map (seal (eos_id p)) groups)
      /\ (forall b, In b (pack_loop (eos_id p) (n_ctx p) tokens_data) ->
                    last b 0 = eos_id p /\ last b 0 <> input_eos_token p)
      /\ (forall pass batch pair i,
            lambada_input_pass p tokens_data = Ok pass ->
            In batch pass -> In pair batch ->
            0 <= i < n_ctx p ->
            znth (snd pair) i
            = if znth (fst pair) ((i + 2) mod n_ctx p) =? input_eos_token p
              then znth (fst pair) ((i + 1) mod n_ctx p)
              else input_eos_token p)).
Proof.
  split; [reflexivity|]. split; [reflexivity|].
  intros Hdiff. split.
  { destruct (pack_loop_groups (eos_id p) (n_ctx p) tokens_data)
      as (groups & Hcat & _ & Hbins).
    now exists groups. }
  split.
  { intros b Hb. apply pack_loop_last in Hb. rewrite Hb. split; congruence. }
  intros pass batch pair i Hpass Hb Hp Hi.
  destruct (lambada_input_pairs p tokens_data pass batch pair Hpass Hb Hp)
    as (m & row & _ & _ & ->).
  simpl fst. now apply get_output_nth.
Qed.

(** A vocabulary of 50257 tokens and an [eos_id] of 0: the bin ends with
    0, and the target is derived with 50256. *)
Lemma input_eos_from_vocab_witness :
  input_eos_token (gpt2 0 4 1) <> eos_id (gpt2 0 4 1)
  /\ input_eos_token (gpt2 0 4 1) = 50256
  /\ (forall b, In b (pack_loop 0 4 [[5; 6]]) -> last b 0 = 0)
  /\ lambada_input_pass (gpt2 0 4 1) [[5; 6]]
     = Ok [[([5; 6; 0; 1], [50256; 50256; 50256; 50256])]].
Proof.
  assert (Hd : input_eos_token (gpt2 0 4 1) <> eos_id (gpt2 0 4 1))
    by (vm_compute; discriminate).
  destruct (input_eos_from_vocab (gpt2 0 4 1) [[5; 6]]) as (Heos & _ & H).
  destruct (H Hd) as (_ & Hlast & _).
  split; [exact Hd|]. split; [exact Heos|]. split; [|reflexivity].
  intros b Hb. now apply Hlast.
Defined.

(** * More on the packing loop *)

Section NextFit.

Variable eos_token : Z.
Variable ctx : Z.

Lemma snoc_split {A : Type} (l pre post : list A) (x y z : A) :
  l ++ [x] = pre ++ y :: z :: post ->
  (post = [] /\ l = pre ++ [y] /\ x = z)
  \/ (exists post', post = post' ++ [x] /\ l = pre ++ y :: z :: post').
Proof.
  intros E. destruct post as [|w post] using rev_ind.
  - left. replace (pre ++ [y; z]) with ((pre ++ [y]) ++ [z]) in E
      by (now rewrite <- app_assoc).
    apply app_inj_tail in E as [-> ->]. auto.
  - right. exists post.
    replace (pre ++ y :: z :: post ++ [w]) with ((pre ++ y :: z :: post) ++ [w]) in E
      by (now rewrite <- app_assoc).
    apply app_inj_tail in E as [-> ->]. auto.
Qed.

Lemma snoc_split_one {A : Type} (l g1 g2 : list A) (x y : A) :
  l ++ [x] = g1 ++ y :: g2 ->
  (g2 = [] /\ l = g1 /\ x = y)
  \/ (exists g2', g2 = g2' ++ [x] /\ l = g1 ++ y :: g2').
Proof.
  intros E. destruct g2 as [|z g2] using rev_ind.
  - left. apply app_inj_tail in E as [-> ->]. auto.
  - right. exists g2.
    replace (g1 ++ y :: g2 ++ [z]) with ((g1 ++ y :: g2) ++ [z]) in E
      by (now rewrite <- app_assoc).
    apply app_inj_tail in E as [-> ->]. auto.
Qed.

(** The packing is next-fit: the first document of a bin did not fit at
    the end of the bin before it, and every other document of a bin did fit
    after those before it in the bin. *)
Lemma pack_loop_next_fit_groups (docs : list (list Z)) :
  exists groups : list (list (list Z)),
    concat groups = docs
    /\ Forall (fun g => g <> []) groups
    /\ pack_loop eos_token ctx docs = map (seal eos_token) groups
    /\ (forall pre g a rest post,
           groups = pre ++ g :: (a :: rest) :: post ->
           len (seal eos_token g) + len a + 1 > ctx)
    /\ (forall g g1 a g2,
           In g groups -> g = g1 ++ a :: g2 -> g1 <> [] ->
           len (seal eos_token g1) + len a + 1 <= ctx).
Proof.
  induction docs as [|a docs IH] using rev_ind.
  - exists []. repeat split; try constructor.
    + intros pre g a rest post E. destruct pre; discriminate.
    + intros g g1 a g2 [].
  - destruct IH as (groups & Hcat & Hne & Hbins & Hfit & Hin).
    rewrite pack_loop_snoc.
    destruct (pack_step_cases ctx (pack_loop eos_token ctx docs) a)
      as [Hnew|[Hsome Hle]].
    + rewrite (pack_step_new _ _ _ _ Hnew).
      exists (groups ++ [[a]]). repeat split.
      * rewrite concat_app, Hcat. simpl. reflexivity.
      * apply Forall_app. split; [assumption|]. constructor; [discriminate|constructor].
      * rewrite map_app, Hbins. simpl. unfold seal. simpl. now rewrite app_nil_r.
      * intros pre g a0 rest post E.
        apply snoc_split in E as [(-> & -> & E)|(post' & -> & ->)].
        -- injection E as <- <-.
           destruct Hnew as [Hnil|Hbig].
           ++ rewrite Hbins in Hnil. apply map_eq_nil in Hnil.
              destruct pre; discriminate.
           ++ rewrite Hbins, map_app in Hbig. simpl in Hbig.
              now rewrite last_last in Hbig.
        -- eapply Hfit. reflexivity.
      * intros g g1 a0 g2 Hg E Hg1.
        apply in_app_or in Hg as [Hg|[<-|[]]]; [now apply (Hin g g1 a0 g2)|].
        apply (f_equal (@length (list Z))) in E.
        rewrite length_app in E. simpl in E.
        destruct g1; [contradiction|simpl in E; lia].
    + rewrite (pack_step_same _ _ _ _ Hsome Hle).
      destruct (exists_last (l := groups)) as (gs & g0 & ->).
      { intros ->. apply Hsome. exact Hbins. }
      exists (gs ++ [g0 ++ [a]]). repeat split.
      * rewrite <- Hcat, !concat_app. simpl. now rewrite !app_nil_r, app_assoc.
      * apply Forall_app in Hne as [Hgs _].
        apply Forall_app. split; [assumption|].
        constructor; [|constructor]. now destruct g0.
      * rewrite Hbins, !map_app. simpl.
        rewrite removelast_snoc, last_last, seal_snoc. reflexivity.
      * intros pre g a0 rest post E.
        apply snoc_split in E as [(-> & -> & E)|(post' & -> & ->)].
        -- apply Forall_app in Hne as [_ Hg0]. inversion Hg0 as [|? ? Hg0' _]; subst.
           destruct g0 as [|a1 r1]; [contradiction|].
           simpl in E. injection E as <- <-.
           apply (Hfit pre g a1 r1 []).
           now rewrite <- app_assoc.
        -- apply (Hfit pre g a0 rest (post' ++ [g0])).
           now rewrite <- app_assoc.
      * intros g g1 a0 g2 Hg E Hg1.
        apply in_app_or in Hg as [Hg|[<-|[]]].
        -- apply (Hin g g1 a0 g2); [apply in_or_app; now left|exact E|exact Hg1].
        -- apply snoc_split_one in E as [(-> & -> & ->)|(g2' & -> & E)].
           ++ rewrite Hbins, map_app in Hle. simpl in Hle.
              now rewrite last_last in Hle.
           ++ apply (Hin g0 g1 a0 g2'); [|exact E|exact Hg1].
              apply in_or_app. right. now left.
Qed.

Lemma length_groups_le {A : Type} (groups : list (list A)) :
  Forall (fun g => g <> []) groups ->
  (length groups <= length (concat groups))%nat.
Proof.
  induction 1 as [|g groups Hg _ IH]; simpl; [lia|].
  rewrite length_app. destruct g; [contradiction|]. simpl. lia.
Qed.

End NextFit.

(** The packing loop is next-fit.  The bins are the documents cut into
    consecutive non-empty groups; the first document of every bin but the
    first did not fit, with its eos marker, at the end of the bin before
    it; every other document of a bin did fit, with its eos marker, after
    the documents before it in the bin; there are never more bins than
    documents. *)
Theorem pack_loop_next_fit (eos_token ctx : Z) (docs : list (list Z)) :
  (exists groups : list (list (list Z)),
      concat groups = docs
      /\ Forall (fun g => g <> []) groups
      /\ pack_loop eos_token ctx docs = map (seal eos_token) groups
      /\ (forall pre g a rest post,
             groups = pre ++ g :: (a :: rest) :: post ->
             len (seal eos_token g) + len a + 1 > ctx)
      /\ (forall g g1 a g2,
             In g groups -> g = g1 ++ a :: g2 -> g1 <> [] ->
             len (seal eos_token g1) + len a + 1 <= ctx))
  /\ len (pack_loop eos_token ctx docs) <= len docs.
Proof.
  destruct (pack_loop_next_fit_groups eos_token ctx docs)
    as (groups & Hcat & Hne & Hbins & Hfit & Hin).
  split; [now exists groups|].
  rewrite Hbins, <- Hcat. unfold len. rewrite length_map.
  apply Nat2Z.inj_le. now apply length_groups_le.
Qed.

(** ** Reading the documents back from the matrix *)

Lemma combine_map_app {A B C : Type} (f : A -> B) (g : A * B -> C) (l e : list A) :
  map g (combine l (map f (l ++ e))) = map (fun b => g (b, f b)) l.
Proof. induction l as [|x l IH]; simpl; [reflexivity|now rewrite IH]. Qed.

Lemma packed_row_prefix (w : nat) (b : bin) :
  (length b <= w)%nat ->
  Forall (fun t => 0 <= t < 65536) b ->
  firstn (length b) (packed_row w b) = b.
Proof.
  intros Hle Hr. unfold packed_row.
  destruct (Nat.leb_spec (length b) w); [|lia].
  rewrite <- (length_map to_uint16) at 1.
  rewrite firstn_app, Nat.sub_diag, firstn_all. simpl. rewrite app_nil_r.
  rewrite <- (map_id b) at 2. apply map_ext_in.
  intros t Ht. rewrite Forall_forall in Hr. now apply to_uint16_small, Hr.
Qed.

(** When every document and its eos marker fit in the width, and the
    tokens and the eos marker are below 65536, the first [len b] cells of
    the row of each bin [b] are [b]: read in order, they are the documents,
    each followed by the eos marker. *)
Theorem bin_pack_keeps_tokens (p : params) (tokens_data : list (list Z))
        (m : list (list Z)) :
  bin_pack p tokens_data = Ok m ->
  Forall (fun a => len a + 1 <= n_ctx p) tokens_data ->
  Forall (Forall (fun t => 0 <= t < 65536)) tokens_data ->
  0 <= eos_id p < 65536 ->
  let bins := pack_loop (eos_id p) (n_ctx p) tokens_data in
  let read := map (fun br => firstn (length (fst br)) (snd br)) (combine bins m) in
  read = bins
  /\ concat read = concat (map (fun a => a ++ [eos_id p]) tokens_data).
Proof.
  intros Hm Hfit Hr He bins read.
  assert (E : read = bins).
  { unfold read. apply bin_pack_shape in Hm as (_ & Hn & -> & _ & _). fold bins.
    rewrite (combine_map_app (packed_row (Z.to_nat (n_ctx p)))
               (fun br => firstn (length (fst br)) (snd br))).
    rewrite <- (map_id bins) at 2. apply map_ext_in. intros b Hb. simpl.
    apply packed_row_prefix.
    - pose proof (pack_loop_bounded (eos_id p) (n_ctx p) tokens_data Hfit) as Hle.
      rewrite Forall_forall in Hle. specialize (Hle b Hb). unfold len in Hle. lia.
    - assert (Hall : Forall (fun t => 0 <= t < 65536) (concat bins)).
      { unfold bins. rewrite pack_loop_concat. apply Forall_concat.
        apply Forall_map. rewrite Forall_forall in *. intros a Ha.
        apply Forall_app. split; [now apply Hr|]. now constructor. }
      rewrite Forall_concat in Hall. rewrite Forall_forall in Hall. now apply Hall. }
  split; [exact E|]. rewrite E. apply pack_loop_concat.
Qed.

Lemma bin_pack_keeps_tokens_witness :
  concat (map (fun br => firstn (length (fst br)) (snd br))
              (combine (pack_loop 0 4 [[5; 6]; [7]])
                       [[5; 6; 0; 1]; [7; 0; 1; 1]]))
  = [5; 6; 0; 7; 0].
Proof.
  apply (bin_pack_keeps_tokens (gpt2 0 4 1) [[5; 6]; [7]]
           [[5; 6; 0; 1]; [7; 0; 1; 1]]).
  - reflexivity.
  - repeat constructor; vm_compute; discriminate.
  - repeat constructor; vm_compute; discriminate.
  - simpl; lia.
Defined.

(** * [lambada_init] and [lambada_input] together *)

Lemma bin_pack_rows_mod (p : params) (tokens_data : list (list Z)) (m : list (list Z)) :
  bin_pack p tokens_data = Ok m -> len m mod eval_batch_size p = 0.
Proof.
  intros Hm. apply bin_pack_shape in Hm as (Hb & _ & -> & _ & _).
  unfold len. rewrite length_map, length_app, repeat_length, Nat2Z.inj_add.
  now apply pad_count_multiple.
Qed.

(** For a batch size of at least 1, batching drops no row of the matrix of
    [bin_pack]: the batches of a pass are all its rows, in order, with their
    targets, and the step count that [lambada_init] records is the number of
    these batches, [batch_size] times which is the number of rows. *)
Theorem lambada_no_row_dropped (p : params) (tokens_data : list (list Z))
        (m : list (list Z)) :
  1 <= eval_batch_size p ->
  bin_pack p tokens_data = Ok m ->
  exists pass p',
    lambada_input_pass p tokens_data = Ok pass
    /\ concat pass = map (_get_output (input_eos_token p) (n_ctx p)) m
    /\ lambada_init p tokens_data = Ok p'
    /\ lambada_get_task_info p' = Ok (len pass)
    /\ len pass * eval_batch_size p = len m.
Proof.
  intros Hb Hm.
  pose proof (bin_pack_rows_mod p tokens_data m Hm) as Hmod.
  destruct (ds_batch_spec (eval_batch_size p)
              (map (_get_output (input_eos_token p) (n_ctx p)) m) Hb)
    as (pass & rest & Hpass & Hcat & _ & Hlen & Hrest).
  assert (Hds : len (map (_get_output (input_eos_token p) (n_ctx p)) m) = len m)
    by (unfold len; now rewrite length_map).
  rewrite Hds in Hlen, Hrest. rewrite Hmod in Hrest.
  assert (rest = []) as -> by (destruct rest; [reflexivity|discriminate]).
  rewrite app_nil_r in Hcat.
  exists pass, (set_lambada_n_steps (len pass) p).
  split. { unfold lambada_input_pass. rewrite Hm. exact Hpass. }
  split; [now symmetry|].
  split.
  { unfold lambada_init, py_floordiv. rewrite Hm. simpl.
    destruct (Z.eqb_spec (eval_batch_size p) 0); [lia|]. simpl. now rewrite Hlen. }
  split; [reflexivity|].
  rewrite Hlen. symmetry. rewrite Z.mul_comm. apply Z_div_exact_full_2; [lia|exact Hmod].
Qed.

Lemma lambada_no_row_dropped_witness :
  exists pass p',
    lambada_input_pass (gpt2 0 4 2) [[5; 6]; [7]; [8]] = Ok pass
    /\ concat pass = map (_get_output (input_eos_token (gpt2 0 4 2)) 4)
                         [[5; 6; 0; 1]; [7; 0; 8; 0]]
    /\ lambada_init (gpt2 0 4 2) [[5; 6]; [7]; [8]] = Ok p'
    /\ lambada_get_task_info p' = Ok (len pass)
    /\ len pass * 2 = 2.
Proof.
  apply (lambada_no_row_dropped (gpt2 0 4 2) [[5; 6]; [7]; [8]]
           [[5; 6; 0; 1]; [7; 0; 8; 0]]).
  - simpl; lia.
  - reflexivity.
Defined.

(** A negative batch size passes [bin_pack] and [lambada_init], which
    records a step count that is not positive, negative when the matrix has
    a row; [lambada_input] then fails on the batch size, a negative
    dimension of the batches, with [ValueError]. *)
Theorem lambada_negative_batch (p : params) (tokens_data : list (list Z))
        (m : list (list Z)) :
  eval_batch_size p < 0 ->
  bin_pack p tokens_data = Ok m ->
  exists n_steps,
    lambada_init p tokens_data = Ok (set_lambada_n_steps n_steps p)
    /\ lambada_get_task_info (set_lambada_n_steps n_steps p) = Ok n_steps
    /\ n_steps <= 0
    /\ (m <> [] -> n_steps < 0)
    /\ forall n, lambada_input p tokens_data n = Raise ValueError.
Proof.
  intros Hb Hm.
  pose proof (bin_pack_rows_mod p tokens_data m Hm) as Hmod.
  exists (len m / eval_batch_size p).
  split.
  { unfold lambada_init, py_floordiv. rewrite Hm. simpl.
    destruct (Z.eqb_spec (eval_batch_size p) 0); [lia|reflexivity]. }
  split; [reflexivity|].
  assert (Hlen : 0 <= len m) by (unfold len; lia).
  assert (Hq : len m = eval_batch_size p * (len m / eval_batch_size p))
    by (apply Z_div_exact_full_2; [lia|exact Hmod]).
  split; [nia|].
  split.
  { intros Hne. assert (0 < len m) by (destruct m; [contradiction|unfold len; simpl; lia]).
    nia. }
  intros n. unfold lambada_input, lambada_input_pass, ds_batch. rewrite Hm. simpl.
  destruct (Z.ltb_spec (eval_batch_size p) 0); [reflexivity|lia].
Qed.

Lemma lambada_negative_batch_witness :
  lambada_init (gpt2 0 4 (-2)) [[5]] = Ok (set_lambada_n_steps (-1) (gpt2 0 4 (-2)))
  /\ lambada_input (gpt2 0 4 (-2)) [[5]] 1 = Raise ValueError.
Proof.
  assert (Hb : eval_batch_size (gpt2 0 4 (-2)) < 0) by (simpl; lia).
  destruct (lambada_negative_batch (gpt2 0 4 (-2)) [[5]]
              [[5; 0; 1; 1]; [1; 1; 1; 1]] Hb eq_refl)
    as (n_steps & Hinit & _ & _ & _ & Hin).
  split; [reflexivity|apply Hin].
Defined.

(** * Targets of rows without the marker *)

Lemma znth_In (l : list Z) (j : Z) :
  0 <= j < len l -> In (znth l j) l.
Proof.
  intros Hj. rewrite znth_nth by lia. apply nth_In. unfold len in Hj. lia.
Qed.

(** A row that does not hold the marker has the marker as its target at
    every position. *)
Lemma get_output_blank (eos_token n : Z) (row : list Z) :
  len row = n ->
  (forall x, In x row -> x <> eos_token) ->
  snd (_get_output eos_token n row) = repeat eos_token (Z.to_nat n).
Proof.
  intros Hlen Hrow.
  apply (nth_ext _ _ 0 0).
  - now rewrite get_output_length, repeat_length.
  - intros i Hi. rewrite get_output_length in Hi.
    rewrite nth_repeat_lt by exact Hi.
    assert (Hz : 0 <= Z.of_nat i < n) by lia.
    pose proof (get_output_nth eos_token n row (Z.of_nat i) Hz) as E.
    rewrite znth_nth, Nat2Z.id in E by lia. rewrite E.
    destruct (Z.eqb_spec (znth row ((Z.of_nat i + 2) mod n)) eos_token) as [Heq|_];
      [|reflexivity].
    exfalso. apply (Hrow (znth row ((Z.of_nat i + 2) mod n))); [|exact Heq].
    apply znth_In. rewrite Hlen. apply Z.mod_pos_bound. lia.
Qed.

Lemma packed_row_In (w : nat) (b : bin) (x : Z) :
  In x (packed_row w b) ->
  x = dummy_token \/ exists t, In t b /\ x = to_uint16 t.
Proof.
  unfold packed_row. destruct (Nat.leb (length b) w); intros Hin.
  - apply in_app_or in Hin as [Hin|Hin].
    + right. apply in_map_iff in Hin as (t & <- & Ht). now exists t.
    + left. now apply repeat_spec in Hin.
  - left. now apply repeat_spec in Hin.
Qed.

(** The cells of a returned matrix: the dummy token, the eos marker of the
    packing, or a token of a document, as 16-bit values. *)
Lemma bin_pack_cells (p : params) (tokens_data : list (list Z)) (m : list (list Z))
      (row : list Z) (x : Z) :
  bin_pack p tokens_data = Ok m -> In row m -> In x row ->
  x = dummy_token \/ x = to_uint16 (eos_id p)
  \/ exists a t, In a tokens_data /\ In t a /\ x = to_uint16 t.
Proof.
  intros Hm Hrow Hx. apply bin_pack_shape in Hm as (_ & _ & -> & _ & _).
  apply in_map_iff in Hrow as (b & <- & Hb).
  apply packed_row_In in Hx as [->|(t & Ht & ->)]; [now left|]. right.
  apply in_app_or in Hb as [Hb|Hb]; [|apply repeat_spec in Hb; subst; contradiction].
  assert (Hc : In t (concat (pack_loop (eos_id p) (n_ctx p) tokens_data)))
    by (apply in_concat; now exists b).
  rewrite pack_loop_concat in Hc. apply in_concat in Hc as (s & Hs & Hts).
  apply in_map_iff in Hs as (a & <- & Ha).
  apply in_app_or in Hts as [Hta|[<-|[]]]; [right; now exists a, t|now left].
Qed.

Lemma input_eos_token_values (p : params) :
  input_eos_token p = 50256 \/ input_eos_token p = 0.
Proof. unfold input_eos_token. destruct (n_vocab p >=? 50257); auto. Qed.

(** When neither the eos marker of the packing nor any token of a
    document is, as a 16-bit value, the marker that [lambada_input] derives
    from the vocabulary size, every target of the stream is that marker at
    every position: no position holds a token to predict. *)
Theorem stream_targets_blank (p : params) (tokens_data : list (list Z))
        (pass : list (list (list Z * list Z))) (batch : list (list Z * list Z))
        (pair : list Z * list Z) :
  lambada_input_pass p tokens_data = Ok pass ->
  In batch pass -> In pair batch ->
  eos_id p mod 65536 <> input_eos_token p ->
  (forall a t, In a tokens_data -> In t a -> t mod 65536 <> input_eos_token p) ->
  snd pair = repeat (input_eos_token p) (Z.to_nat (n_ctx p)).
Proof.
  intros Hpass Hb Hp Heos Htok.
  destruct (lambada_input_pairs p tokens_data pass batch pair Hpass Hb Hp)
    as (m & row & Hm & Hrow & ->).
  apply get_output_blank.
  - pose proof Hm as Hs. apply bin_pack_shape in Hs as (_ & _ & _ & _ & Hrows).
    rewrite Forall_forall in Hrows. now apply Hrows.
  - intros x Hx.
    destruct (bin_pack_cells p tokens_data m row x Hm Hrow Hx)
      as [->|[->|(a & t & Ha & Ht & ->)]].
    + destruct (input_eos_token_values p) as [-> | ->]; discriminate.
    + exact Heos.
    + now apply (Htok a t).
Qed.

Lemma stream_targets_blank_witness :
  lambada_input_pass (gpt2 0 4 1) [[5; 6]; [7]]
  = Ok [[([5; 6; 0; 1], [50256; 50256; 50256; 50256])];
        [([7; 0; 1; 1], [50256; 50256; 50256; 50256])]]
  /\ snd ([7; 0; 1; 1], [50256; 50256; 50256; 50256])
     = repeat (input_eos_token (gpt2 0 4 1)) 4.
Proof.
  split; [reflexivity|].
  apply (stream_targets_blank (gpt2 0 4 1) [[5; 6]; [7]]
           [[([5; 6; 0; 1], [50256; 50256; 50256; 50256])];
            [([7; 0; 1; 1], [50256; 50256; 50256; 50256])]]
           [([7; 0; 1; 1], [50256; 50256; 50256; 50256])]).
  - reflexivity.
  - right; left; reflexivity.
  - left; reflexivity.
  - vm_compute; discriminate.
  - intros a t [<-|[<-|[]]] Ht; simpl in Ht;
      repeat (destruct Ht as [<-|Ht]; [vm_compute; discriminate|]); contradiction.
Defined.

(** * Targets of the last tokens *)

(** Every document lies whole, followed by the marker, in some bin. *)
Lemma doc_in_bin (eos_token ctx : Z) (docs : list (list Z)) (a : list Z) :
  In a docs ->
  exists b pre post,
    In b (pack_loop eos_token ctx docs) /\ b = pre ++ a ++ eos_token :: post.
Proof.
  intros Ha.
  destruct (pack_loop_groups eos_token ctx docs) as (groups & Hcat & _ & ->).
  rewrite <- Hcat in Ha. apply in_concat in Ha as (g & Hg & Hag).
  apply in_split in Hag as (g1 & g2 & ->).
  exists (seal eos_token (g1 ++ a :: g2)), (seal eos_token g1), (seal eos_token g2).
  split; [now apply in_map|].
  unfold seal. rewrite map_app, concat_app. simpl. now rewrite <- app_assoc.
Qed.

(** A row that holds [x] in cell [k] and the marker in cell [k + 1] has
    [x] as its target one cell before [k], counted around the row. *)
Lemma get_output_before_marker (eos_token n : Z) (row : list Z) (k x : Z) :
  0 <= k -> k + 1 < n ->
  znth row k = x -> znth row (k + 1) = eos_token ->
  let i := (k - 1) mod n in
  0 <= i < n /\ znth (snd (_get_output eos_token n row)) i = x.
Proof.
  intros Hk Hn Hx He i.
  assert (Hi : 0 <= i < n) by (apply Z.mod_pos_bound; lia).
  split; [exact Hi|].
  rewrite get_output_nth by exact Hi.
  assert (E2 : (i + 2) mod n = k + 1).
  { apply two_ahead_iff; try assumption; try lia. unfold i. f_equal. lia. }
  assert (E1 : (i + 1) mod n = k).
  { unfold i. replace (k - 1) with (k + 1 - 2) by lia.
    rewrite one_ahead_of_two_behind by lia.
    replace (k + 1 - 1) with k by lia. apply Z.mod_small. lia. }
  rewrite E2, E1, He, Hx. now rewrite Z.eqb_refl.
Qed.

Lemma lambada_pass_all_rows (p : params) (tokens_data : list (list Z))
      (m : list (list Z)) :
  1 <= eval_batch_size p ->
  bin_pack p tokens_data = Ok m ->
  exists pass,
    lambada_input_pass p tokens_data = Ok pass
    /\ concat pass = map (_get_output (input_eos_token p) (n_ctx p)) m.
Proof.
  intros Hb Hm.
  pose proof (bin_pack_rows_mod p tokens_data m Hm) as Hmod.
  destruct (ds_batch_spec (eval_batch_size p)
              (map (_get_output (input_eos_token p) (n_ctx p)) m) Hb)
    as (pass & rest & Hpass & Hcat & _ & _ & Hrest).
  replace (len (map (_get_output (input_eos_token p) (n_ctx p)) m)) with (len m)
    in Hrest by (unfold len; now rewrite length_map).
  rewrite Hmod in Hrest.
  assert (rest = []) as -> by (destruct rest; [reflexivity|discriminate]).
  rewrite app_nil_r in Hcat.
  exists pass. split; [|now symmetry].
  unfold lambada_input_pass. rewrite Hm. exact Hpass.
Qed.

(** When the eos marker of the packing is the one [lambada_input] derives
    from the vocabulary size, every document and its marker fit in the
    width, the tokens are in the range of a C long, and the batch size is
    at least 1: the last token of every non-empty document, if below 65536,
    is the target of some position of some row of the stream. *)
Theorem every_document_scored (p : params) (tokens_data : list (list Z))
        (a : list Z) :
  1 <= eval_batch_size p ->
  Forall (fun a => len a + 1 <= n_ctx p) tokens_data ->
  Forall (Forall in_c_long) tokens_data ->
  eos_id p = input_eos_token p ->
  In a tokens_data -> a <> [] ->
  0 <= last a 0 < 65536 ->
  exists pass batch pair i,
    lambada_input_pass p tokens_data = Ok pass
    /\ In batch pass /\ In pair batch
    /\ 0 <= i < n_ctx p
    /\ znth (snd pair) i = last a 0.
Proof.
  intros Hb Hfit Hrange Heos Ha Hne Hlast.
  destruct (exists_last Hne) as (a' & x & ->). rewrite last_last in *.
  assert (Hex : 0 <= eos_id p < 65536).
  { rewrite Heos. destruct (input_eos_token_values p) as [-> | ->]; lia. }
  assert (Hec : in_c_long (eos_id p)) by (unfold in_c_long; lia).
  destruct (doc_in_bin (eos_id p) (n_ctx p) tokens_data _ Ha)
    as (b & pre & post & Hbin & Hb_eq).
  pose proof (pack_loop_bounded (eos_id p) (n_ctx p) tokens_data Hfit) as Hbound.
  rewrite Forall_forall in Hbound. specialize (Hbound b Hbin).
  assert (Hlenb : len b = len (pre ++ a') + 2 + len post).
  { rewrite Hb_eq. unfold len. repeat (rewrite length_app; simpl). lia. }
  assert (Hq : 0 <= len (pre ++ a')) by (unfold len; lia).
  assert (Hpost : 0 <= len post) by (unfold len; lia).
  assert (Hn : 0 <= n_ctx p) by lia.
  pose proof (bin_pack_succeeds p tokens_data ltac:(lia) Hn Hfit Hrange Hec) as Hm.
  simpl in Hm.
  destruct (lambada_pass_all_rows p tokens_data _ Hb Hm) as (pass & Hpass & Hcat).
  set (w := Z.to_nat (n_ctx p)) in *.
  set (row := packed_row w b).
  assert (Hfits : fits w b = true).
  { unfold fits. apply orb_true_iff. left. apply Nat.leb_le. unfold len in *. lia. }
  assert (Hcell : forall j, 0 <= j < len b -> znth row j = to_uint16 (znth b j)).
  { intros j Hj. unfold row. rewrite packed_row_znth by (assumption || lia).
    destruct (Z.ltb_spec j (len b)); [reflexivity|lia]. }
  assert (Hbx : znth b (len (pre ++ a')) = x).
  { rewrite znth_nth by lia. unfold len. rewrite Nat2Z.id, Hb_eq.
    replace (pre ++ (a' ++ [x]) ++ eos_id p :: post)
      with ((pre ++ a') ++ x :: eos_id p :: post)
      by (now rewrite <- !app_assoc).
    apply nth_middle. }
  assert (Hbe : znth b (len (pre ++ a') + 1) = eos_id p).
  { rewrite znth_nth by lia. unfold len.
    replace (Z.to_nat (Z.of_nat (length (pre ++ a')) + 1))
      with (length ((pre ++ a') ++ [x])) by (rewrite (length_app _ [x]); simpl; lia).
    rewrite Hb_eq.
    replace (pre ++ (a' ++ [x]) ++ eos_id p :: post)
      with (((pre ++ a') ++ [x]) ++ eos_id p :: post)
      by (now rewrite <- !app_assoc).
    apply nth_middle. }
  destruct (get_output_before_marker (input_eos_token p) (n_ctx p) row
              (len (pre ++ a')) x) as [Hi Ht]; try lia.
  { rewrite Hcell, Hbx by lia. now apply to_uint16_small. }
  { rewrite Hcell, Hbe, <- Heos by lia. now apply to_uint16_small. }
  assert (Hin : In (_get_output (input_eos_token p) (n_ctx p) row) (concat pass)).
  { rewrite Hcat. apply in_map, in_map, in_or_app. now left. }
  apply in_concat in Hin as (batch & Hbatch & Hpair).
  exists pass, batch, (_get_output (input_eos_token p) (n_ctx p) row),
    ((len (pre ++ a') - 1) mod n_ctx p).
  repeat split; try assumption; try apply Hi.
Qed.

Lemma every_document_scored_witness :
  exists pass batch pair i,
    lambada_input_pass (gpt2 50256 4 1) [[5; 6]; [7]] = Ok pass
    /\ In batch pass /\ In pair batch
    /\ 0 <= i < 4
    /\ znth (snd pair) i = 7.
Proof.
  apply (every_document_scored (gpt2 50256 4 1) [[5; 6]; [7]] [7]).
  - simpl; lia.
  - repeat constructor; vm_compute; discriminate.
  - c_long_range.
  - reflexivity.
  - right; left; reflexivity.
  - discriminate.
  - simpl; lia.
Defined.


(** * The arrays of the wikitext tasks *)

Section Cut.

Variable text : list Z.
Variable s : Z.
Hypothesis s_pos : 0 < s.

Local Abbreviation L := (len text).
Local Abbreviation cut := (fun i => py_slice text i (i + s)).

Lemma py_slice_cut (i : Z) :
  0 <= i < L ->
  py_slice text i (i + s) = firstn (Z.to_nat s) (skipn (Z.to_nat i) text).
Proof.
  intros Hi. unfold py_slice, py_index.
  destruct (Z.ltb_spec i 0); [lia|].
  destruct (Z.ltb_spec (i + s) 0); [lia|].
  rewrite (Z.min_l i) by lia.
  assert (Hlen : length (skipn (Z.to_nat i) text) = Z.to_nat (L - i))
    by (rewrite length_skipn; unfold len; lia).
  destruct (Z.le_gt_cases (i + s) L).
  - rewrite Z.min_l by lia. f_equal. lia.
  - rewrite Z.min_r by lia. rewrite !firstn_all2; try reflexivity; lia.
Qed.

Lemma length_cut (i : Z) :
  0 <= i < L -> len (py_slice text i (i + s)) = Z.min s (L - i).
Proof.
  intros Hi. rewrite py_slice_cut by exact Hi.
  unfold len in *. rewrite length_firstn, length_skipn. lia.
Qed.

Lemma range_up_nil (fuel : nat) (i : Z) : L <= i -> range_up fuel i L s = [].
Proof.
  intros Hi. destruct fuel; simpl; [reflexivity|].
  destruct (Z.ltb_spec i L); [lia|reflexivity].
Qed.

Lemma range_up_cons (fuel : nat) (i : Z) :
  i < L -> range_up (S fuel) i L s = i :: range_up fuel (i + s) L s.
Proof. intros Hi. simpl. destruct (Z.ltb_spec i L); [reflexivity|lia]. Qed.

(** The pieces, one after the other, are the text from [i] on. *)
Lemma cut_concat (fuel : nat) :
  forall i, 0 <= i -> (Z.to_nat (L - i) <= fuel)%nat ->
    concat (map cut (range_up fuel i L s)) = skipn (Z.to_nat i) text.
Proof.
  induction fuel as [|fuel IH]; intros i Hi Hfuel.
  - simpl. symmetry. apply skipn_all2. unfold len in *. lia.
  - destruct (Z.lt_ge_cases i L) as [Hlt|Hge].
    + rewrite range_up_cons by exact Hlt. simpl concat.
      rewrite IH by lia. rewrite py_slice_cut by lia.
      replace (Z.to_nat (i + s)) with (Z.to_nat s + Z.to_nat i)%nat by lia.
      rewrite <- skipn_skipn. apply firstn_skipn.
    + rewrite range_up_nil by exact Hge. simpl. symmetry.
      apply skipn_all2. unfold len in *. lia.
Qed.

Lemma cut_bounded (fuel : nat) :
  forall i, 0 <= i ->
    Forall (fun c => 1 <= len c <= s) (map cut (range_up fuel i L s)).
Proof.
  induction fuel as [|fuel IH]; intros i Hi; [constructor|].
  destruct (Z.lt_ge_cases i L) as [Hlt|Hge].
  - rewrite range_up_cons by exact Hlt. simpl. constructor.
    + rewrite length_cut by lia. lia.
    + apply IH. lia.
  - rewrite range_up_nil by exact Hge. constructor.
Qed.

(** Every piece but the last has [s] tokens. *)
Lemma cut_full (fuel : nat) :
  forall i k, 0 <= i ->
    (S k < length (map cut (range_up fuel i L s)))%nat ->
    len (nth k (map cut (range_up fuel i L s)) []) = s.
Proof.
  induction fuel as [|fuel IH]; intros i k Hi Hk; [simpl in Hk; lia|].
  destruct (Z.lt_ge_cases i L) as [Hlt|Hge].
  - rewrite range_up_cons in * by exact Hlt. simpl in Hk. simpl nth.
    destruct k as [|k].
    + destruct (Z.lt_ge_cases (i + s) L) as [Hnext|Hlast].
      * rewrite length_cut by lia. lia.
      * rewrite range_up_nil in Hk by exact Hlast. simpl in Hk. lia.
    + apply IH; lia.
  - rewrite range_up_nil in Hk by exact Hge. simpl in Hk. lia.
Qed.

Lemma range_up_length (fuel : nat) :
  forall i, 0 <= i -> (Z.to_nat (L - i) <= fuel)%nat ->
    length (range_up fuel i L s) = Z.to_nat ((L - i + s - 1) / s).
Proof.
  induction fuel as [|fuel IH]; intros i Hi Hfuel.
  - simpl. assert (H : (L - i + s - 1) / s <= 0); [|lia].
    assert ((L - i + s - 1) / s < 1); [|lia].
    apply Z.div_lt_upper_bound; lia.
  - destruct (Z.lt_ge_cases i L) as [Hlt|Hge].
    + rewrite range_up_cons by exact Hlt. simpl length. rewrite IH by lia.
      replace (L - i + s - 1) with ((L - (i + s) + s - 1) + 1 * s) by lia.
      rewrite Z.div_add by lia.
      assert (0 <= (L - (i + s) + s - 1) / s) by (apply Z.div_pos; lia).
      lia.
    + rewrite range_up_nil by exact Hge. simpl.
      assert ((L - i + s - 1) / s < 1); [|lia].
      apply Z.div_lt_upper_bound; lia.
Qed.

End Cut.

Lemma wikitext_arrays_eq (p : params) (encoded_text : list Z) :
  2 <= n_ctx p ->
  wikitext_arrays p encoded_text
  = Ok (map (fun i => py_slice encoded_text i (i + (n_ctx p - 1)))
            (range_up (Z.to_nat (len encoded_text)) 0 (len encoded_text)
                      (n_ctx p - 1))).
Proof.
  intros Hn. unfold wikitext_arrays, py_range.
  destruct (Z.eqb_spec (n_ctx p - 1) 0); [lia|].
  destruct (Z.ltb_spec 0 (n_ctx p - 1)); [|lia].
  simpl. rewrite Z.sub_0_r. f_equal. apply map_ext. intros i. f_equal. lia.
Qed.

(** For a width of at least 2 the encoded text is cut into consecutive
    pieces of [n_ctx - 1] tokens, the last one possibly shorter and none
    empty: the pieces, one after the other, are the text, and there are
    [ceil(len(text) / (n_ctx - 1))] of them. *)
Theorem wikitext_arrays_cut (p : params) (encoded_text : list Z) :
  2 <= n_ctx p ->
  exists arrays,
    wikitext_arrays p encoded_text = Ok arrays
    /\ concat arrays = encoded_text
    /\ Forall (fun c => 1 <= len c <= n_ctx p - 1) arrays
    /\ (forall k, (S k < length arrays)%nat ->
                  len (nth k arrays []) = n_ctx p - 1)
    /\ len arrays = (len encoded_text + n_ctx p - 2) / (n_ctx p - 1).
Proof.
  intros Hn. eexists. split; [now apply wikitext_arrays_eq|].
  assert (Hs : 0 < n_ctx p - 1) by lia.
  split; [now apply (cut_concat encoded_text (n_ctx p - 1) Hs); lia|].
  split; [apply (cut_bounded encoded_text (n_ctx p - 1) Hs); lia|].
  split; [intros k Hk; apply (cut_full encoded_text (n_ctx p - 1) Hs); [lia|exact Hk]|].
  unfold len at 1. rewrite length_map, range_up_length by lia.
  replace (len encoded_text - 0 + (n_ctx p - 1) - 1)
    with (len encoded_text + n_ctx p - 2) by lia.
  apply Z2Nat.id. apply Z.div_pos; unfold len; lia.
Qed.

Lemma wikitext_arrays_cut_witness :
  exists arrays,
    wikitext_arrays (gpt2 0 4 1) [11; 12; 13; 14; 15; 16; 17] = Ok arrays
    /\ concat arrays = [11; 12; 13; 14; 15; 16; 17]
    /\ len arrays = 3.
Proof.
  assert (Hn : 2 <= n_ctx (gpt2 0 4 1)) by (simpl; lia).
  destruct (wikitext_arrays_cut (gpt2 0 4 1) [11; 12; 13; 14; 15; 16; 17] Hn)
    as (arrays & H1 & H2 & _ & _ & H3).
  exists arrays. split; [exact H1|]. split; [exact H2|exact H3].
Defined.

(** A width of 1 makes the step of the range 0, which raises
    [ValueError]; a width of 0 or less makes it negative, the range is
    empty and the text is dropped without an error. *)
Theorem wikitext_arrays_narrow (p : params) (encoded_text : list Z) :
  (n_ctx p = 1 -> wikitext_arrays p encoded_text = Raise ValueError)
  /\ (n_ctx p <= 0 -> wikitext_arrays p encoded_text = Ok []).
Proof.
  unfold wikitext_arrays, py_range. split; intros Hn.
  - rewrite Hn. reflexivity.
  - destruct (Z.eqb_spec (n_ctx p - 1) 0); [lia|].
    destruct (Z.ltb_spec 0 (n_ctx p - 1)); [lia|].
    replace (Z.to_nat (0 - len encoded_text)) with 0%nat by (unfold len; lia).
    reflexivity.
Qed.

Lemma wikitext_arrays_narrow_witness :
  wikitext_arrays (gpt2 0 1 1) [11; 12; 13] = Raise ValueError
  /\ wikitext_arrays (gpt2 0 0 1) [11; 12; 13] = Ok [].
Proof.
  split.
  - apply (wikitext_arrays_narrow (gpt2 0 1 1) [11; 12; 13]). reflexivity.
  - apply (wikitext_arrays_narrow (gpt2 0 0 1) [11; 12; 13]). simpl; lia.
Defined.

(** Documents of which all but the last fill a bin on their own. *)
Lemma pack_loop_full (eos_token ctx : Z) (docs : list (list Z)) :
  (forall k, (S k < length docs)%nat -> len (nth k docs []) = ctx - 1) ->
  pack_loop eos_token ctx docs = map (fun c => c ++ [eos_token]) docs.
Proof.
  induction docs as [|a pre IH] using rev_ind; intros Hfull; [reflexivity|].
  rewrite pack_loop_snoc, IH.
  - rewrite pack_step_new; [now rewrite map_app|].
    destruct pre as [|c pre'] using rev_ind; [now left|]. right.
    rewrite map_app. simpl. rewrite last_last.
    specialize (Hfull (length pre')).
    rewrite app_nth1, nth_middle in Hfull by (rewrite length_app; simpl; lia).
    rewrite !length_app in Hfull. simpl in Hfull.
    specialize (Hfull ltac:(lia)).
    assert (0 <= len a) by (unfold len; lia).
    unfold len in *. rewrite length_app. simpl. lia.
  - intros k Hk. specialize (Hfull k).
    rewrite length_app in Hfull. simpl in Hfull.
    rewrite app_nth1 in Hfull by lia. apply Hfull. lia.
Qed.

(** The pieces of a wikitext task each take a bin of their own, so that
    for a width of at least 2, a batch size other than 0, and tokens and an
    eos marker in the range of a C long, [bin_pack] returns a matrix, with
    a row per piece before the padding rows. *)
Theorem wikitext_bins (p : params) (encoded_text : list Z) :
  2 <= n_ctx p ->
  eval_batch_size p <> 0 ->
  Forall in_c_long encoded_text ->
  in_c_long (eos_id p) ->
  exists arrays m,
    wikitext_arrays p encoded_text = Ok arrays
    /\ pack_loop (eos_id p) (n_ctx p) arrays
       = map (fun c => c ++ [eos_id p]) arrays
    /\ bin_pack p arrays = Ok m
    /\ len m = len arrays
               + Z.of_nat (pad_count (eval_batch_size p) (len arrays)).
Proof.
  intros Hn Hb Hrange Hec.
  assert (Hs : 0 < n_ctx p - 1) by lia.
  set (arrays := map (fun i => py_slice encoded_text i (i + (n_ctx p - 1)))
                     (range_up (Z.to_nat (len encoded_text)) 0 (len encoded_text)
                               (n_ctx p - 1))).
  assert (Hcl : Forall (Forall in_c_long) arrays).
  { apply Forall_concat. unfold arrays.
    rewrite (cut_concat encoded_text (n_ctx p - 1) Hs) by lia. exact Hrange. }
  assert (Hbins : pack_loop (eos_id p) (n_ctx p) arrays
                  = map (fun c => c ++ [eos_id p]) arrays).
  { apply pack_loop_full. intros k Hk.
    apply (cut_full encoded_text (n_ctx p - 1) Hs); [lia|exact Hk]. }
  assert (Hfit : Forall (fun a => len a + 1 <= n_ctx p) arrays).
  { pose proof (cut_bounded encoded_text (n_ctx p - 1) Hs
                  (Z.to_nat (len encoded_text)) 0 ltac:(lia)) as Hbd.
    fold arrays in Hbd. eapply Forall_impl; [|exact Hbd]. simpl. intros c Hc. lia. }
  exists arrays. eexists.
  split; [now apply wikitext_arrays_eq|]. split; [exact Hbins|].
  split; [apply bin_pack_succeeds; (assumption || lia)|].
  unfold len. rewrite length_map, length_app, repeat_length, Hbins, length_map. lia.
Qed.

Lemma wikitext_bins_witness :
  exists arrays m,
    wikitext_arrays (gpt2 0 4 2) [11; 12; 13; 14; 15; 16; 17] = Ok arrays
    /\ pack_loop 0 4 arrays = map (fun c => c ++ [0]) arrays
    /\ bin_pack (gpt2 0 4 2) arrays = Ok m.
Proof.
  assert (Hn : 2 <= n_ctx (gpt2 0 4 2)) by (simpl; lia).
  assert (Hb : eval_batch_size (gpt2 0 4 2) <> 0) by (simpl; lia).
  assert (Hr : Forall in_c_long [11; 12; 13; 14; 15; 16; 17]) by c_long_range.
  assert (He : in_c_long (eos_id (gpt2 0 4 2))) by c_long_range.
  destruct (wikitext_bins (gpt2 0 4 2) [11; 12; 13; 14; 15; 16; 17] Hn Hb Hr He)
    as (arrays & m & H1 & H2 & H3 & _).
  exists arrays, m. split; [exact H1|]. split; [exact H2|exact H3].
Defined.

(** * The token file *)

Lemma string_length_append (a b : string) :
  String.length (String.append a b) = (String.length a + String.length b)%nat.
Proof. induction a as [|c a IH]; simpl; [reflexivity|now rewrite IH]. Qed.

Lemma substring_whole (b : string) : String.substring 0 (String.length b) b = b.
Proof. induction b as [|c b IH]; simpl; [reflexivity|now rewrite IH]. Qed.

Lemma substring_append (a b : string) :
  String.substring (String.length a) (String.length b) (String.append a b) = b.
Proof. induction a as [|c a IH]; simpl; [apply substring_whole|exact IH]. Qed.

Lemma endswith_append (a b : string) : endswith (String.append a b) b = true.
Proof.
  unfold endswith. rewrite string_length_append.
  replace (String.length a + String.length b - String.length b)%nat
    with (String.length a) by lia.
  rewrite substring_append, String.eqb_refl.
  apply andb_true_iff. split; [apply Nat.leb_le; lia|reflexivity].
Qed.

Section TokenFileFacts.

Variable response : nat -> option (list string).
Variable fix_text : string -> string.
Variable encode : string -> list Z.
Variable md5_hexdigest : string -> string.

Local Abbreviation read_or_create :=
  (lambada_read_or_create_tokens_data response fix_text encode).

Lemma lookup_written (path : string) (f : file) (w : world) :
  lookup path (files (write_file path f w)) = Some f.
Proof. simpl. now rewrite String.eqb_refl. Qed.

(** A call that returns leaves the arrays it returns in the file. *)
Lemma read_or_create_dumped (path : string) (w w1 : world) (arrays : list (list Z)) :
  read_or_create path w = Returned arrays w1 ->
  lookup path (files w1) = Some (Dumped arrays).
Proof.
  unfold lambada_read_or_create_tokens_data, lambada_create_tokens_data.
  destruct (lookup path (files w)) as [[|found]|] eqn:E.
  - discriminate.
  - intros [= <- <-]. exact E.
  - simpl. destruct (response (requests w)); [|discriminate].
    intros [= <- <-]. simpl. now rewrite String.eqb_refl.
Qed.

Lemma read_file_dumped (path : string) (w : world) (arrays : list (list Z)) :
  lookup path (files w) = Some (Dumped arrays) ->
  read_or_create path w = Returned arrays w.
Proof. intros E. unfold lambada_read_or_create_tokens_data. now rewrite E. Qed.

(** The token file is a cache.  After a call of
    [lambada_read_or_create_tokens_data] that returns, the file at the path
    holds the arrays returned; and in any world where it still does, a call
    returns the same arrays, sends no request and writes no file, whatever
    the answer to a request would be. *)
Theorem token_file_cached (path : string) (w w1 : world) (arrays : list (list Z)) :
  read_or_create path w = Returned arrays w1 ->
  lookup path (files w1) = Some (Dumped arrays)
  /\ (requests w1 <= S (requests w))%nat
  /\ (forall w2, lookup path (files w2) = lookup path (files w1) ->
                 read_or_create path w2 = Returned arrays w2).
Proof.
  intros H. pose proof (read_or_create_dumped _ _ _ _ H) as Hd.
  split; [exact Hd|]. split.
  - revert H. unfold lambada_read_or_create_tokens_data, lambada_create_tokens_data.
    destruct (lookup path (files w)) as [[|found]|]; try discriminate.
    + intros [= _ <-]. lia.
    + simpl. destruct (response (requests w)); [|discriminate].
      intros [= _ <-]. simpl. lia.
  - intros w2 E. apply read_file_dumped. now rewrite E.
Qed.

(** A download that fails leaves an empty file behind.  When there is no
    file at the path and the request fails, the call raises the error of
    the request; the file then exists and holds nothing, so that from then
    on, while the file is as it is, a call raises [JSONDecodeError] and
    sends no request: the download is not tried again. *)
Theorem token_file_left_empty (path : string) (w : world) :
  lookup path (files w) = None ->
  response (requests w) = None ->
  exists w1,
    read_or_create path w = Failed HTTPError w1
    /\ requests w1 = S (requests w)
    /\ lookup path (files w1) = Some NotJson
    /\ (forall w2, lookup path (files w2) = lookup path (files w1) ->
                   read_or_create path w2 = Failed JSONDecodeError w2).
Proof.
  intros Hnone Hfail.
  exists (mk_world ((path, NotJson) :: files w) (S (requests w))).
  unfold lambada_read_or_create_tokens_data at 1, lambada_create_tokens_data.
  rewrite Hnone. simpl. rewrite Hfail, String.eqb_refl.
  repeat split.
  intros w2 E. unfold lambada_read_or_create_tokens_data. now rewrite E.
Qed.

Local Abbreviation init_files :=
  (lambada_init_files response fix_text encode md5_hexdigest).
Local Abbreviation input_files :=
  (lambada_input_files response fix_text encode).

Lemma input_pass_set_n_steps (p : params) (n : Z) (tokens_data : list (list Z)) :
  lambada_input_pass (set_lambada_n_steps n p) tokens_data
  = lambada_input_pass p tokens_data.
Proof. reflexivity. Qed.

(** After [lambada_init] has returned, for a batch size of at least 1,
    [lambada_input] on the parameters and the files it leaves returns a
    dataset, sends no request and writes no file, and the step count that
    [lambada_get_task_info] reports is the number of batches of a pass. *)
Theorem lambada_init_then_input (tp tp' : task_params) (w w' : world) :
  init_files tp w = Returned tp' w' ->
  1 <= eval_batch_size (base tp) ->
  exists pass,
    input_files tp' w' = Returned pass w'
    /\ lambada_get_task_info (base tp') = Ok (len pass).
Proof.
  unfold lambada_init_files. intros Hinit Hb.
  destruct (negb _); [discriminate|].
  set (lt_path := String.append "lambada_"
                    (String.append (md5_hexdigest (tokenizer_path tp)) ".json")) in *.
  destruct (read_or_create lt_path w) as [tokens_data w1|] eqn:Hread; [|discriminate].
  unfold lambada_init in Hinit.
  destruct (bin_pack (base tp) tokens_data) as [m| |] eqn:Hm; try discriminate.
  simpl in Hinit. unfold py_floordiv in Hinit.
  destruct (Z.eqb_spec (eval_batch_size (base tp)) 0); [lia|].
  simpl in Hinit. injection Hinit as <- <-.
  destruct (lambada_pass_all_rows (base tp) tokens_data m Hb Hm)
    as (pass & Hpass & Hcat).
  exists pass. unfold lambada_input_files. simpl.
  rewrite (read_file_dumped lt_path w1 tokens_data)
    by (eapply read_or_create_dumped; exact Hread).
  split.
  - rewrite input_pass_set_n_steps, Hpass. reflexivity.
  - unfold lambada_get_task_info. simpl. f_equal.
    unfold lambada_input_pass in Hpass. rewrite Hm in Hpass. simpl in Hpass.
    destruct (ds_batch_spec (eval_batch_size (base tp))
                (map (_get_output (input_eos_token (base tp)) (n_ctx (base tp))) m) Hb)
      as (pass' & rest & Hpass' & _ & _ & Hlen & _).
    rewrite Hpass in Hpass'. injection Hpass' as <-.
    rewrite Hlen. unfold len. now rewrite length_map.
Qed.

(** The path that [lambada_init] makes from the hash of the tokenizer
    path ends in [.json], whatever the hash: the assertion on it holds in
    every call, and [lambada_init] is what follows the assertion. *)
Theorem lambada_path_ends_json (tp : task_params) (w : world) :
  let lt_path :=
    String.append "lambada_"
                  (String.append (md5_hexdigest (tokenizer_path tp)) ".json") in
  endswith lt_path ".json" = true
  /\ init_files tp w
     = match read_or_create lt_path w with
       | Failed e w' => Failed e w'
       | Returned tokens_data w' =>
           match lift (lambada_init (base tp) tokens_data) w' with
           | Failed e w'' => Failed e w''
           | Returned b w'' =>
               Returned (mk_task_params b (tokenizer_path tp) (Some lt_path)) w''
           end
       end.
Proof.
  intros lt_path.
  assert (E : forall a b c, String.append a (String.append b c)
                            = String.append (String.append a b) c).
  { intros a b c. induction a as [|x a IH]; simpl; [reflexivity|now rewrite IH]. }
  assert (Hend : endswith lt_path ".json" = true).
  { unfold lt_path. rewrite E. apply endswith_append. }
  split; [exact Hend|].
  unfold lambada_init_files. fold lt_path. rewrite Hend. reflexivity.
Qed.

End TokenFileFacts.

(** A network whose first request fails and whose later ones carry one
    line, a text of two characters; tokens are the lengths of the texts. *)
Lemma token_file_cached_witness :
  let response := fun k => match k with O => None | S _ => Some ["ab"%string] end in
  let encode := fun t => [Z.of_nat (String.length t)] in
  lambada_read_or_create_tokens_data response (fun t => t) encode "f"%string
    (mk_world [] 1)
  = Returned [[2]] (mk_world [("f"%string, Dumped [[2]]); ("f"%string, NotJson)] 2)
  /\ lambada_read_or_create_tokens_data response (fun t => t) encode "f"%string
       (mk_world [("f"%string, Dumped [[2]]); ("f"%string, NotJson)] 2)
     = Returned [[2]]
         (mk_world [("f"%string, Dumped [[2]]); ("f"%string, NotJson)] 2).
Proof.
  intros response encode. split; [reflexivity|].
  destruct (token_file_cached response (fun t => t) encode "f"%string
              (mk_world [] 1)
              (mk_world [("f"%string, Dumped [[2]]); ("f"%string, NotJson)] 2)
              [[2]] eq_refl) as (_ & _ & H).
  apply H. reflexivity.
Defined.

Lemma token_file_left_empty_witness :
  let response := fun k => match k with O => None | S _ => Some ["ab"%string] end in
  let encode := fun t => [Z.of_nat (String.length t)] in
  exists w1,
    lambada_read_or_create_tokens_data response (fun t => t) encode "f"%string
      (mk_world [] 0) = Failed HTTPError w1
    /\ lambada_read_or_create_tokens_data response (fun t => t) encode "f"%string w1
       = Failed JSONDecodeError w1.
Proof.
  intros response encode.
  destruct (token_file_left_empty response (fun t => t) encode "f"%string
              (mk_world [] 0) eq_refl eq_refl) as (w1 & H1 & _ & _ & H2).
  exists w1. split; [exact H1|]. apply H2. reflexivity.
Defined.

Lemma lambada_init_then_input_witness :
  let response := fun k => match k with O => None | S _ => Some ["ab"%string] end in
  let encode := fun t => [Z.of_nat (String.length t)] in
  let tp := mk_task_params (gpt2 0 4 1) "t"%string None in
  exists tp' w' pass,
    lambada_init_files response (fun t => t) encode (fun t => t) tp (mk_world [] 1)
    = Returned tp' w'
    /\ lambada_input_files response (fun t => t) encode tp' w' = Returned pass w'
    /\ lambada_get_task_info (base tp') = Ok (len pass).
Proof.
  intros response encode tp.
  assert (Hb : 1 <= eval_batch_size (base tp)) by (simpl; lia).
  eexists. eexists.
  assert (Hinit : lambada_init_files response (fun t => t) encode (fun t => t) tp
                    (mk_world [] 1)
                  = Returned
                      (mk_task_params (set_lambada_n_steps 1 (gpt2 0 4 1)) "t"%string
                         (Some "lambada_t.json"%string))
                      (mk_world [("lambada_t.json"%string, Dumped [[2]]);
                                 ("lambada_t.json"%string, NotJson)] 2))
    by reflexivity.
  destruct (lambada_init_then_input response (fun t => t) encode (fun t => t)
              tp _ _ _ Hinit Hb) as (pass & H1 & H2).
  exists pass. split; [exact Hinit|]. split; [exact H1|exact H2].
Defined.

(** * Rows with one marker *)

Lemma get_output_single_marker (eos_token n : Z) (row : list Z) (k i : Z) :
  0 <= k < n ->
  0 <= i < n ->
  (forall j, 0 <= j < n -> (znth row j = eos_token <-> j = k)) ->
  znth (snd (_get_output eos_token n row)) i
  = if i =? (k - 2) mod n then znth row ((k - 1) mod n) else eos_token.
Proof.
  intros Hk Hi Hrow.
  rewrite get_output_nth by exact Hi.
  assert (Hn : 0 < n) by lia.
  assert (H2 : 0 <= (i + 2) mod n < n) by (apply Z.mod_pos_bound; lia).
  destruct (Z.eqb_spec (znth row ((i + 2) mod n)) eos_token) as [E|E].
  - apply Hrow in E; [|exact H2].
    apply two_ahead_iff in E; try assumption.
    rewrite <- E at 1. rewrite Z.eqb_refl.
    rewrite E at 1. now rewrite one_ahead_of_two_behind.
  - destruct (Z.eqb_spec i ((k - 2) mod n)) as [E'|_]; [|reflexivity].
    apply two_ahead_iff in E'; try assumption.
    exfalso. apply E. now apply Hrow.
Qed.

(** A row that holds the marker in cell [k] and nowhere else has one
    position with a token as target: [(k - 2) mod n_ctx], whose target is
    the cell before the marker; the target of every other position is the
    marker. *)
Theorem single_marker_target (eos_token n : Z) (row : list Z) (k i : Z) :
  0 <= k < n ->
  0 <= i < n ->
  (forall j, 0 <= j < n -> (znth row j = eos_token <-> j = k)) ->
  znth (snd (_get_output eos_token n row)) i
  = if i =? (k - 2) mod n then znth row ((k - 1) mod n) else eos_token.
Proof. apply get_output_single_marker. Qed.

Lemma single_marker_target_witness :
  znth (snd (_get_output 0 4 [11; 12; 13; 0])) 1 = 13
  /\ znth (snd (_get_output 0 4 [11; 12; 13; 0])) 2 = 0.
Proof.
  assert (Hrow : forall j, 0 <= j < 4 -> (znth [11; 12; 13; 0] j = 0 <-> j = 3)).
  { intros j Hj.
    assert (C : j = 0 \/ j = 1 \/ j = 2 \/ j = 3) by lia.
    destruct C as [-> |[-> |[-> | ->]]]; vm_compute; split; intros H;
      try discriminate; reflexivity. }
  split.
  - exact (single_marker_target 0 4 [11; 12; 13; 0] 3 1 ltac:(lia) ltac:(lia) Hrow).
  - exact (single_marker_target 0 4 [11; 12; 13; 0] 3 2 ltac:(lia) ltac:(lia) Hrow).
Defined.



(** * The prompts of a coqa item *)

Section Dict.

Context {V : Type}.

Lemma dict_set_fresh (k : string) (v : V) (d : Coqa.dict V) :
  ~ In k (Coqa.keys d) -> Coqa.dict_set k v d = d ++ [(k, v)].
Proof.
  induction d as [|[k' v'] d IH]; simpl; intros Hk; [reflexivity|].
  destruct (String.eqb_spec k k') as [->|_]; [tauto|].
  rewrite IH; tauto.
Qed.

Lemma dict_set_keys_In (k k0 : string) (v : V) (d : Coqa.dict V) :
  In k0 (Coqa.keys (Coqa.dict_set k v d)) <-> k0 = k \/ In k0 (Coqa.keys d).
Proof.
  induction d as [|[k' v'] d IH]; simpl.
  - split; intros [H|H]; auto; contradiction.
  - destruct (String.eqb_spec k k') as [->|Hne]; simpl.
    + split; [intros [H|H]; auto|intros [H|[H|H]]; auto].
    + rewrite IH. split; [intros [H|[H|H]]; auto|intros [H|[H|H]]; auto].
Qed.

Lemma dict_set_NoDup (k : string) (v : V) (d : Coqa.dict V) :
  NoDup (Coqa.keys d) -> NoDup (Coqa.keys (Coqa.dict_set k v d)).
Proof.
  induction d as [|[k' v'] d IH]; simpl; intros Hd.
  - constructor; [tauto|constructor].
  - inversion Hd as [|? ? Hk' Hrest]; subst.
    destruct (String.eqb_spec k k') as [->|Hne]; simpl.
    + now constructor.
    + constructor; [|now apply IH].
      intros Hin. apply dict_set_keys_In in Hin as [H|H]; [congruence|contradiction].
Qed.

Lemma dict_get_set (k k0 : string) (v : V) (d : Coqa.dict V) :
  Coqa.dict_get k0 (Coqa.dict_set k v d)
  = if String.eqb k0 k then Some v else Coqa.dict_get k0 d.
Proof.
  induction d as [|[k' v'] d IH]; simpl.
  - destruct (String.eqb k0 k); reflexivity.
  - destruct (String.eqb_spec k k') as [->|Hne]; simpl.
    + destruct (String.eqb k0 k'); reflexivity.
    + rewrite IH. destruct (String.eqb_spec k0 k') as [->|_]; [|reflexivity].
      destruct (String.eqb_spec k' k); [congruence|reflexivity].
Qed.

Lemma dict_of_snoc (pairs : list (string * V)) (k : string) (v : V) :
  Coqa.dict_of (pairs ++ [(k, v)]) = Coqa.dict_set k v (Coqa.dict_of pairs).
Proof. unfold Coqa.dict_of. now rewrite fold_left_app. Qed.

(** Pairs with different keys make the dict of these pairs, in order. *)
Lemma dict_of_NoDup (pairs : list (string * V)) :
  NoDup (map fst pairs) -> Coqa.dict_of pairs = pairs.
Proof.
  induction pairs as [|[k v] pairs IH] using rev_ind; intros Hd; [reflexivity|].
  rewrite map_app in Hd. simpl in Hd.
  rewrite dict_of_snoc, IH by (eapply NoDup_app_remove_r; exact Hd).
  apply dict_set_fresh. intros Hin.
  apply NoDup_remove_2 in Hd. rewrite app_nil_r in Hd. contradiction.
Qed.

Lemma dict_of_keys (pairs : list (string * V)) :
  NoDup (Coqa.keys (Coqa.dict_of pairs))
  /\ (forall k, In k (Coqa.keys (Coqa.dict_of pairs)) <-> In k (map fst pairs)).
Proof.
  induction pairs as [|[k v] pairs [IH1 IH2]] using rev_ind.
  - split; [constructor|reflexivity].
  - rewrite dict_of_snoc. split; [now apply dict_set_NoDup|].
    intros k0. rewrite dict_set_keys_In, IH2, map_app, in_app_iff. simpl.
    split; [intros [->|H]; auto|intros [H|[->|[]]]; auto].
Qed.

(** The value of a key is the one of the last pair with that key. *)
Lemma dict_of_get (pairs : list (string * V)) (k : string) :
  Coqa.dict_get k (Coqa.dict_of pairs)
  = option_map snd (find (fun kv => String.eqb k (fst kv)) (rev pairs)).
Proof.
  induction pairs as [|[k' v] pairs IH] using rev_ind; [reflexivity|].
  rewrite dict_of_snoc, dict_get_set, rev_app_distr. simpl.
  destruct (String.eqb k k'); [reflexivity|exact IH].
Qed.

End Dict.

Lemma append_inj_l (a b c : string) :
  String.append a b = String.append a c -> b = c.
Proof. induction a as [|x a IH]; simpl; intros H; [exact H|]. injection H. exact IH. Qed.

Lemma py_str_inj (n n' : Z) : Coqa.py_str n = Coqa.py_str n' -> n = n'.
Proof.
  unfold Coqa.py_str. intros H.
  apply (f_equal NilEmpty.int_of_string) in H. rewrite !NilEmpty.isi in H.
  injection H as H. now apply DecimalZ.to_int_inj.
Qed.

Lemma prompt_id_of_inj (item_id : string) (t t' : Z) :
  Coqa.prompt_id_of item_id t = Coqa.prompt_id_of item_id t' -> t = t'.
Proof.
  unfold Coqa.prompt_id_of. intros H.
  apply append_inj_l, append_inj_l in H. now apply py_str_inj.
Qed.

Lemma NoDup_map_inj {A B : Type} (f : A -> B) (l : list A) :
  (forall x y, f x = f y -> x = y) -> NoDup l -> NoDup (map f l).
Proof.
  intros Hf. induction 1 as [|x l Hx _ IH]; simpl; constructor; [|exact IH].
  intros Hin. apply in_map_iff in Hin as (y & Hy & Hin).
  apply Hf in Hy. now subst.
Qed.

Section CoqaFacts.

Variable encode : string -> list Z.

(** The pairs that [item_prompts] gives to [dict]. *)
Lemma item_prompts_pairs (it : Coqa.item) :
  Coqa.item_prompts encode it
  = Coqa.dict_of
      (map (fun q => (Coqa.prompt_id_of (Coqa.id it) (Coqa.turn_id q),
                      encode (Coqa.prompt_of (Coqa.story it) (Coqa.input_text q))))
           (Coqa.questions it)).
Proof.
  unfold Coqa.item_prompts. f_equal. rewrite !map_map.
  induction (Coqa.questions it) as [|q qs IH]; simpl; [reflexivity|now rewrite IH].
Qed.

Lemma prompt_ids_NoDup (item_id : string) (qs : list Coqa.question) :
  NoDup (map Coqa.turn_id qs) <->
  NoDup (map (fun q => Coqa.prompt_id_of item_id (Coqa.turn_id q)) qs).
Proof.
  rewrite <- (map_map Coqa.turn_id (Coqa.prompt_id_of item_id)).
  split.
  - apply NoDup_map_inj. intros t t'. apply prompt_id_of_inj.
  - apply NoDup_map_inv.
Qed.

End CoqaFacts.

Lemma find_prompt (encode : string -> list Z) (item_id story : string)
      (q : Coqa.question) (l : list Coqa.question) :
  option_map snd
    (find (fun kv => String.eqb (Coqa.prompt_id_of item_id (Coqa.turn_id q)) (fst kv))
          (map (fun q' => (Coqa.prompt_id_of item_id (Coqa.turn_id q'),
                           encode (Coqa.prompt_of story (Coqa.input_text q')))) l))
  = option_map (fun q' => encode (Coqa.prompt_of story (Coqa.input_text q')))
               (find (fun q' => Coqa.turn_id q' =? Coqa.turn_id q) l).
Proof.
  induction l as [|x l IH]; simpl; [reflexivity|].
  destruct (Z.eqb_spec (Coqa.turn_id x) (Coqa.turn_id q)) as [E|E].
  - rewrite E, String.eqb_refl. reflexivity.
  - destruct (String.eqb_spec (Coqa.prompt_id_of item_id (Coqa.turn_id q))
                              (Coqa.prompt_id_of item_id (Coqa.turn_id x))) as [K|_].
    + apply prompt_id_of_inj in K. congruence.
    + exact IH.
Qed.

(** When the turn ids of the questions of an item differ from one
    another, [item['prompts']] has one entry per question, in the order of
    the questions: the key [f"{id}_{turn_id}"] and the encoding of
    [story + "\nQ: " + input_text + "\nA: "]; the lists of keys and of
    values that [coqa_input] takes from it are aligned with the
    questions. *)
Theorem coqa_prompts_in_order (encode : string -> list Z) (it : Coqa.item) :
  NoDup (map Coqa.turn_id (Coqa.questions it)) ->
  let d := Coqa.item_prompts encode it in
  d = map (fun q => (Coqa.prompt_id_of (Coqa.id it) (Coqa.turn_id q),
                     encode (Coqa.prompt_of (Coqa.story it) (Coqa.input_text q))))
          (Coqa.questions it)
  /\ Coqa.keys d
     = map (fun q => Coqa.prompt_id_of (Coqa.id it) (Coqa.turn_id q))
           (Coqa.questions it)
  /\ Coqa.values d
     = map (fun q => encode (Coqa.prompt_of (Coqa.story it) (Coqa.input_text q)))
           (Coqa.questions it).
Proof.
  intros Hd d.
  assert (E : d = map (fun q => (Coqa.prompt_id_of (Coqa.id it) (Coqa.turn_id q),
                                 encode (Coqa.prompt_of (Coqa.story it)
                                                        (Coqa.input_text q))))
                      (Coqa.questions it)).
  { unfold d. rewrite item_prompts_pairs. apply dict_of_NoDup.
    rewrite map_map. simpl. now apply prompt_ids_NoDup. }
  split; [exact E|]. rewrite E. unfold Coqa.keys, Coqa.values.
  rewrite !map_map. split; reflexivity.
Qed.

Lemma coqa_prompts_in_order_witness :
  Coqa.item_prompts (fun t => [Z.of_nat (String.length t)])
    (Coqa.mk_item "x" "s" [Coqa.mk_question "a" 1; Coqa.mk_question "bc" 2])
  = [("x_1"%string, [10]); ("x_2"%string, [11])].
Proof.
  destruct (coqa_prompts_in_order (fun t => [Z.of_nat (String.length t)])
              (Coqa.mk_item "x" "s" [Coqa.mk_question "a" 1; Coqa.mk_question "bc" 2]))
    as (H & _).
  - repeat constructor; simpl; intuition discriminate.
  - exact H.
Defined.

(** Whatever the turn ids: the keys of [item['prompts']] differ from one
    another and there are at most as many entries as questions, as many
    exactly when the turn ids differ from one another; the entry of the
    key of a question holds the prompt of the last question of the item
    with the same turn id, so that a question whose turn id comes again
    later has no prompt of its own. *)
Theorem coqa_prompts_repeated_turn (encode : string -> list Z) (it : Coqa.item) :
  let d := Coqa.item_prompts encode it in
  NoDup (Coqa.keys d)
  /\ (length d <= length (Coqa.questions it))%nat
  /\ (length d = length (Coqa.questions it)
      <-> NoDup (map Coqa.turn_id (Coqa.questions it)))
  /\ (forall q, In q (Coqa.questions it) ->
        exists q',
          find (fun q' => Coqa.turn_id q' =? Coqa.turn_id q)
               (rev (Coqa.questions it)) = Some q'
          /\ Coqa.dict_get (Coqa.prompt_id_of (Coqa.id it) (Coqa.turn_id q)) d
             = Some (encode (Coqa.prompt_of (Coqa.story it) (Coqa.input_text q')))).
Proof.
  intros d. unfold d. rewrite item_prompts_pairs.
  set (F := fun q => (Coqa.prompt_id_of (Coqa.id it) (Coqa.turn_id q),
                      encode (Coqa.prompt_of (Coqa.story it) (Coqa.input_text q)))).
  destruct (dict_of_keys (map F (Coqa.questions it))) as [Hnd Hin].
  assert (Hkeys : map fst (map F (Coqa.questions it))
                  = map (fun q => Coqa.prompt_id_of (Coqa.id it) (Coqa.turn_id q))
                        (Coqa.questions it)) by (now rewrite map_map).
  assert (Hle : (length (Coqa.dict_of (map F (Coqa.questions it)))
                 <= length (Coqa.questions it))%nat).
  { rewrite <- (length_map fst (Coqa.dict_of _)).
    rewrite <- (length_map F (Coqa.questions it)), <- (length_map fst (map F _)).
    apply NoDup_incl_length; [exact Hnd|]. intros k Hk. now apply Hin. }
  split; [exact Hnd|]. split; [exact Hle|]. split.
  - split.
    + intros Hlen. apply (prompt_ids_NoDup (Coqa.id it)). rewrite <- Hkeys.
      apply NoDup_incl_NoDup
        with (l := Coqa.keys (Coqa.dict_of (map F (Coqa.questions it)))).
      * exact Hnd.
      * unfold Coqa.keys. rewrite !length_map. lia.
      * intros k Hk. now apply Hin.
    + intros Hd. rewrite dict_of_NoDup; [apply length_map|].
      rewrite Hkeys. now apply prompt_ids_NoDup.
  - intros q Hq. rewrite dict_of_get, <- map_rev. unfold F.
    rewrite find_prompt.
    destruct (find (fun q' => Coqa.turn_id q' =? Coqa.turn_id q)
                   (rev (Coqa.questions it))) as [q'|] eqn:Hf.
    + exists q'. split; reflexivity.
    + exfalso. apply in_rev in Hq.
      pose proof (find_none _ _ Hf q Hq) as Hn. simpl in Hn.
      rewrite Z.eqb_refl in Hn. discriminate.
Qed.

(** Two questions with turn id 1: one entry, with the prompt of the
    second question. *)
Lemma coqa_prompts_repeated_turn_witness :
  Coqa.item_prompts (fun t => [Z.of_nat (String.length t)])
    (Coqa.mk_item "x" "s" [Coqa.mk_question "a" 1; Coqa.mk_question "bc" 1])
  = [("x_1"%string, [11])]
  /\ exists q',
      Coqa.dict_get (Coqa.prompt_id_of "x" 1)
        (Coqa.item_prompts (fun t => [Z.of_nat (String.length t)])
           (Coqa.mk_item "x" "s" [Coqa.mk_question "a" 1; Coqa.mk_question "bc" 1]))
      = Some [Z.of_nat (String.length (Coqa.prompt_of "s" (Coqa.input_text q')))].
Proof.
  split; [reflexivity|].
  destruct (coqa_prompts_repeated_turn (fun t => [Z.of_nat (String.length t)])
              (Coqa.mk_item "x" "s" [Coqa.mk_question "a" 1; Coqa.mk_question "bc" 1]))
    as (_ & _ & _ & H).
  destruct (H (Coqa.mk_question "a" 1)) as (q' & _ & Hq'); [left; reflexivity|].
  exists q'. exact Hq'.
Defined.
